(** * The request-execution and consistency layer of the Diem JSON-RPC client

    A shallow embedding of [src/diem/jsonrpc/client.py]: the ledger-state
    tracker ([Client.update_last_known_state]), the per-call pipeline
    ([Client._send_http_request], [Client.execute_without_retry]), the
    request strategies ([RequestStrategy], [RequestWithBackups]), the retry
    policy ([Retry.execute]) and the transaction-wait loop
    ([Client.wait_for_transaction2]).

    Python integers are unbounded and are modelled by [Z].  Values decoded
    from a JSON response are dynamically typed; the fragment of Python values
    modelled here is [None], [int] and [str].  Exceptions are results:
    every function that can raise returns a [result]. *)

From Stdlib Require Import ZArith QArith.
From stdpp Require Import base option list strings gmap.

Open Scope Z_scope.

(** ** Python values and results *)

(** The values a decoded JSON field may hold in this model: null, an
    integer or a string.  A JSON float or boolean, which Python compares
    with an int without a [TypeError], is outside it. *)
Inductive pyval : Type :=
| PyNone
| PyInt (z : Z)
| PyStr (s : string).

#[global] Instance pyval_eq_dec : EqDecision pyval.
Proof. solve_decision. Defined.

(** The exception kinds raised or handled in [client.py].  [RequestException]
    stands for [requests.RequestException] and its subclasses (raised by
    [session.post] and [response.raise_for_status]); [ParseError] for
    [google.protobuf.json_format.ParseError]; [TypeError] and [IndexError]
    are the interpreter's.  Messages are not modelled, except that
    [JsonRpcError] keeps the server's error payload. *)
Inductive error : Type :=
| RequestException
| ParseError
| TypeError
| IndexError
| NetworkError
| InvalidServerResponse
| StaleResponseError
| JsonRpcError (err : pyval).

#[global] Instance error_eq_dec : EqDecision error.
Proof. solve_decision. Defined.

(** A call either returns a value or raises. *)
Inductive result (A : Type) : Type :=
| Return (a : A)
| Raise (e : error).
Arguments Return {A} a.
Arguments Raise {A} e.

(** ** Dynamically typed comparisons *)

(** [a != b]: never raises; values of different types are unequal. *)
Definition py_ne (a b : pyval) : bool := negb (bool_decide (a = b)).

(** [a > b]: defined between two ints and between two strs; every other
    combination raises [TypeError].  [None] is the sign of that. *)
Definition py_gt (a b : pyval) : option bool :=
  match a, b with
  | PyInt x, PyInt y => Some (Z.gtb x y)
  | PyStr x, PyStr y => Some (String.ltb y x)
  | _, _ => None
  end.

(** [a <= b], with the same typing as [py_gt]. *)
Definition py_le (a b : pyval) : option bool :=
  match a, b with
  | PyInt x, PyInt y => Some (Z.leb x y)
  | PyStr x, PyStr y => Some (String.leb x y)
  | _, _ => None
  end.

(** ** The ledger-state tracker *)

(** Modelled from the spec: [diem.jsonrpc.state.State] is imported by
    [client.py] but its declaration is not among the sources; it is the
    record of the three fields the client constructs it with. *)
Record State : Type := mkState {
  chain_id : pyval;
  version : pyval;
  timestamp_usecs : pyval
}.

#[global] Instance State_eq_dec : EqDecision State.
Proof. solve_decision. Defined.

(** A state all of whose fields are ints, as the annotations promise. *)
Definition IntState (c v t : Z) : State := mkState (PyInt c) (PyInt v) (PyInt t).

(** [Client.__init__]: [State(chain_id=-1, version=-1, timestamp_usecs=-1)]. *)
Definition initial_state : State := IntState (-1) (-1) (-1).

(** [Client.get_last_known_state]: a copy of the stored state. *)
Definition get_last_known_state (st : State) : State := st.

(** [Client.update_last_known_state], on the stored state [curr].  The lock
    makes the body atomic; the function returns the stored state after the
    call and the call's outcome. *)
Definition update_last_known_state (curr : State) (chain_id0 version0 timestamp_usecs0 : pyval)
  : State * result unit :=
  if py_ne (chain_id curr) (PyInt (-1)) && py_ne (chain_id curr) chain_id0 then
    (curr, Raise InvalidServerResponse)
  else
    match py_gt (version curr) version0 with
    | None => (curr, Raise TypeError)
    | Some true => (curr, Raise StaleResponseError)
    | Some false =>
        match py_gt (timestamp_usecs curr) timestamp_usecs0 with
        | None => (curr, Raise TypeError)
        | Some true => (curr, Raise StaleResponseError)
        | Some false => (mkState chain_id0 version0 timestamp_usecs0, Return tt)
        end
    end.

(** A sequence of calls, each on the state the one before left: a call
    that raises leaves the state to the next one. *)
Definition run_updates (st : State) (calls : list (pyval * pyval * pyval)) : State :=
  fold_left (fun st '(c, v, t) => fst (update_last_known_state st c v t)) calls st.

(** ** The per-call pipeline *)

(** The request [execute_without_retry] builds: a dict with the keys
    [jsonrpc], [id], [method] and [params]. *)
Record request : Type := mkRequest {
  jsonrpc : string;
  request_id : Z;
  method : string;
  params : list pyval
}.

(** What the HTTP collaborator does with one [session.post]: the post itself
    raises, the status is not 2xx ([raise_for_status] raises), the body is
    not JSON ([response.json()] raises [ValueError]), or the body decodes to
    a JSON object, a dict. *)
Inductive http_response : Type :=
| PostRaises
| StatusNotOk
| NotJson
| Body (json : gmap string pyval).

(** [json.get(key)]: the value, or [None] when the key is absent. *)
Definition dict_get (json : gmap string pyval) (key : string) : pyval :=
  default PyNone (json !! key).

(** [key in json]. *)
Definition dict_in (key : string) (json : gmap string pyval) : bool :=
  bool_decide (is_Some (json !! key)).

(** [Client._send_http_request], given what the post to [url] answered. *)
Definition _send_http_request (st : State) (response : http_response)
    (ignore_stale_response : bool) : State * result (gmap string pyval) :=
  match response with
  | PostRaises => (st, Raise RequestException)
  | StatusNotOk => (st, Raise RequestException)
  | NotJson => (st, Raise InvalidServerResponse)
  | Body json =>
      (* check stable response before check jsonrpc error *)
      match update_last_known_state st
              (dict_get json "diem_chain_id")
              (dict_get json "diem_ledger_version")
              (dict_get json "diem_ledger_timestampusec") with
      | (st', Return _) => (st', Return json)
      | (st', Raise StaleResponseError) =>
          if negb ignore_stale_response then (st', Raise StaleResponseError)
          else (st', Return json)
      | (st', Raise e) => (st', Raise e)
      end
  end.

(** ** Request strategies *)

(** [RequestStrategy] (the base class sends directly) and its subclass
    [RequestWithBackups]. *)
Inductive RequestStrategy : Type :=
| Direct
| RequestWithBackups (_backups : list string) (_fallback : bool).

(** The surroundings of one logical request: what the endpoint answers to
    the first post (the direct or primary call) and to the second (the
    backup call), the draw of [random.choice], and the two choices the
    thread pool makes for a pair of concurrent calls: which of them takes
    the tracker's lock first, and which future [as_completed] yields
    first. *)
Record Env : Type := mkEnv {
  post : nat -> string -> request -> http_response;
  draw : nat;
  primary_locks_first : bool;
  primary_completes_first : bool
}.

(** [random.choice(seq)]: raises [IndexError] on an empty sequence. *)
Definition random_choice (env : Env) (seq : list string) : result string :=
  match seq !! (draw env mod length seq)%nat with
  | Some url => Return url
  | None => Raise IndexError
  end.

(** [RequestWithBackups._fallback_to_backup], on the outcomes the two
    futures hold.  Every modelled [error] is an [Exception]. *)
Definition _fallback_to_backup {A} (primary backup : result A) : result A :=
  match primary with
  | Return a => Return a
  | Raise _ => backup
  end.

(** [RequestWithBackups._first_success]: [first] is the future
    [as_completed] yields first. *)
Definition _first_success {A} (primary_first : bool) (primary backup : result A) : result A :=
  let first := if primary_first then primary else backup in
  let second := if primary_first then backup else primary in
  match first with
  | Return a => Return a
  | Raise _ => second
  end.

(** The two submitted calls run [_send_http_request] concurrently; they
    share only the tracker, whose update is atomic, so a run is one of the
    two orders of the updates.  The state given is the tracker once both
    calls have finished; [send_request] may return or raise while the other
    call is still in flight. *)
Definition run_concurrently (st : State) (primary_first : bool)
    (primary backup : http_response) (ignore_stale_response : bool)
  : State * result (gmap string pyval) * result (gmap string pyval) :=
  if primary_first then
    let '(st1, p) := _send_http_request st primary ignore_stale_response in
    let '(st2, b) := _send_http_request st1 backup ignore_stale_response in
    (st2, p, b)
  else
    let '(st1, b) := _send_http_request st backup ignore_stale_response in
    let '(st2, p) := _send_http_request st1 primary ignore_stale_response in
    (st2, p, b).

(** [RequestStrategy.send_request] and [RequestWithBackups.send_request];
    [url] is the client's [_url]. *)
Definition send_request (rs : RequestStrategy) (url : string) (env : Env) (st : State)
    (req : request) (ignore_stale_response : bool) : State * result (gmap string pyval) :=
  match rs with
  | Direct => _send_http_request st (post env 0%nat url req) ignore_stale_response
  | RequestWithBackups backups fallback =>
      match random_choice env backups with
      | Raise e =>
          (* the primary call is already submitted when the draw fails *)
          (fst (_send_http_request st (post env 0%nat url req) ignore_stale_response), Raise e)
      | Return backup_url =>
          let '(st', primary, backup) :=
            run_concurrently st (primary_locks_first env)
              (post env 0%nat url req) (post env 1%nat backup_url req) ignore_stale_response in
          if fallback then (st', _fallback_to_backup primary backup)
          else (st', _first_success (primary_completes_first env) primary backup)
      end
  end.

(** ** execute_without_retry *)

(** The two [except] clauses of [execute_without_retry]. *)
Definition wrap_errors {A} (r : result A) : result A :=
  match r with
  | Raise RequestException => Raise NetworkError
  | Raise ParseError => Raise InvalidServerResponse
  | _ => r
  end.

(** The body of the [try] after the response arrived: the classification of
    the envelope.  A call without [result_parser] returns [None]. *)
Definition classify {V} (json : gmap string pyval)
    (result_parser : option (pyval -> result V)) : result (option V) :=
  if dict_in "error" json then Raise (JsonRpcError (dict_get json "error"))
  else if dict_in "result" json then
    match result_parser with
    | Some parse =>
        match parse (dict_get json "result") with
        | Return v => Return (Some v)
        | Raise e => Raise e
        end
    | None => Return None
    end
  else Raise InvalidServerResponse.

(** [x or False] for an optional bool. *)
Definition or_False (x : option bool) : bool := default false x.

(** [Client.execute_without_retry]. *)
Definition execute_without_retry {V} (rs : RequestStrategy) (url : string) (env : Env)
    (st : State) (method0 : string) (params0 : list pyval)
    (result_parser : option (pyval -> result V))
    (ignore_stale_response : option bool) : State * result (option V) :=
  let req := mkRequest "2.0" 1 method0 params0 in
  match send_request rs url env st req (or_False ignore_stale_response) with
  | (st', Return json) => (st', wrap_errors (classify json result_parser))
  | (st', Raise e) => (st', wrap_errors (Raise e))
  end.

(** ** Durations and clock readings *)

(** [time.time()], [timeout_secs], [delay_secs] and their like are Python
    floats.  The code adds two of them, multiplies one by an int, compares
    two with [<] and tests one for truth; these four operations are the
    interface, and no law of arithmetic is assumed of them. *)
Class PyFloat (T : Type) : Type := {
  fadd : T -> T -> T;
  fmul_int : T -> Z -> T;
  flt : T -> T -> bool;
  ftruthy : T -> bool
}.

(** Rationals are one instance: exact arithmetic, zero is the false value. *)
#[global] Instance Q_PyFloat : PyFloat Q := {|
  fadd := Qplus;
  fmul_int := fun q n => Qmult q (inject_Z n);
  flt := fun a b => negb (Qle_bool b a);
  ftruthy := fun q => negb (Qeq_bool q 0)
|}.

(** [x or default] for an optional float: [None] and zero are false. *)
Definition py_or {T} `{PyFloat T} (x : option T) (default0 : T) : T :=
  match x with
  | Some t => if ftruthy t then t else default0
  | None => default0
  end.

(** ** The retry policy *)

(** What a run of [Retry.execute] does besides computing: it invokes the
    operation and it sleeps. *)
Inductive event (T : Type) : Type :=
| Invoke
| Sleep (secs : T).
Arguments Invoke {T}.
Arguments Sleep {T} secs.

(** The dataclass [Retry]; [exception] is the class the [except] clause
    names, as the test [isinstance(e, exception)]. *)
Record Retry (T : Type) : Type := mkRetry {
  max_retries : Z;
  delay_secs : T;
  exception : error -> bool
}.
Arguments mkRetry {T} max_retries delay_secs exception.
Arguments max_retries {T} r.
Arguments delay_secs {T} r.
Arguments exception {T} r e.

Section RetryExecute.
Context {T : Type} `{PyFloat T}.
(** The operation [fn] is a callable with a state of its own. *)
Context {S V : Type}.
Variable self : Retry T.
Variable fn : S -> result V * S.

(** The [while] loop of [Retry.execute], entered with the current value
    of [tries].  The result is the outcome, the operation's final state
    and the events in order; [Return None] is the fall through the loop.
    [None] means the fuel did not suffice. *)
Fixpoint execute_loop (fuel : nat) (tries : Z) (s : S)
  : option (result (option V) * S * list (event T)) :=
  match fuel with
  | O => None
  | Datatypes.S fuel' =>
      if tries <? max_retries self then
        let tries := tries + 1 in
        match fn s with
        | (Return v, s') => Some (Return (Some v), s', [Invoke])
        | (Raise e, s') =>
            if exception self e then
              if tries <? max_retries self then
                (* simplest backoff strategy: tries * delay *)
                match execute_loop fuel' tries s' with
                | Some (r, s'', tr) =>
                    Some (r, s'', Invoke :: Sleep (fmul_int (delay_secs self) tries) :: tr)
                | None => None
                end
              else Some (Raise e, s', [Invoke])
            else Some (Raise e, s', [Invoke])
        end
      else Some (Return None, s, [])
  end.

(** [Retry.execute]: the loop starts with [tries = 0] and tests its
    condition at most [max_retries + 1] times. *)
Definition execute (s : S) : option (result (option V) * S * list (event T)) :=
  execute_loop (Datatypes.S (Z.to_nat (max_retries self))) 0 s.

(** The operation fails [k] times in a row with the retryable kind and
    then returns [v], leaving the state [s_end]. *)
Fixpoint fails_then_succeeds (k : nat) (s : S) (v : V) (s_end : S) : Prop :=
  match k with
  | O => fn s = (Return v, s_end)
  | Datatypes.S k' =>
      exists e s', fn s = (Raise e, s') /\ exception self e = true /\
                   fails_then_succeeds k' s' v s_end
  end.

(** The operation fails with the retryable kind in whatever state. *)
Definition always_fails : Prop :=
  forall s, exists e, fst (fn s) = Raise e /\ exception self e = true.

(** The operation's state after [n] invocations. *)
Fixpoint after_attempts (n : nat) (s : S) : S :=
  match n with
  | O => s
  | Datatypes.S n' => after_attempts n' (snd (fn s))
  end.

(** The events of [k] failed attempts, each followed by its backoff
    sleep, and of one last attempt; the first is attempt [tries + 1]. *)
Fixpoint attempts_trace (tries : Z) (k : nat) : list (event T) :=
  match k with
  | O => [Invoke]
  | Datatypes.S k' =>
      Invoke :: Sleep (fmul_int (delay_secs self) (tries + 1)) :: attempts_trace (tries + 1) k'
  end.
End RetryExecute.

(** The number of invocations in a trace, and its sleeps in order. *)
Fixpoint invocations {T} (tr : list (event T)) : nat :=
  match tr with
  | [] => 0%nat
  | Invoke :: tr' => Datatypes.S (invocations tr')
  | Sleep _ :: tr' => invocations tr'
  end.

Fixpoint sleeps {T} (tr : list (event T)) : list T :=
  match tr with
  | [] => []
  | Invoke :: tr' => sleeps tr'
  | Sleep d :: tr' => d :: sleeps tr'
  end.

(** ** The transaction-wait loop *)

(** Modelled from the spec: [rpc.Transaction] is a generated protobuf
    message that is not among the sources; the record holds the two fields
    [wait_for_transaction2] reads, [txn.hash] and [txn.vm_status.type]. *)
Record Transaction : Type := mkTransaction {
  hash : string;
  vm_status_type : string
}.

(** How [wait_for_transaction2] ends when it does not return: with one of
    its own four exceptions, or with an exception that passes through it
    (from the lookup, or from a comparison). *)
Inductive wait_error (T : Type) : Type :=
| Propagated (e : error)
| TransactionHashMismatchError (txn : Transaction) (txn_hash : string)
| TransactionExecutionFailed (txn : Transaction)
| TransactionExpired (state : State) (expiration_time_secs : Z)
| WaitForTransactionTimeout (start_time end_time : T).
Arguments Propagated {T} e.
Arguments TransactionHashMismatchError {T} txn txn_hash.
Arguments TransactionExecutionFailed {T} txn.
Arguments TransactionExpired {T} state expiration_time_secs.
Arguments WaitForTransactionTimeout {T} start_time end_time.

Inductive wait_result (T : Type) : Type :=
| Found (txn : Transaction)
| Failed (e : wait_error T).
Arguments Found {T} txn.
Arguments Failed {T} e.

Section WaitForTransaction.
Context {T : Type} `{PyFloat T}.
(** The world the loop runs in and its collaborators: the clock and the
    sleep primitive, the tracker as the world holds it (other threads and
    the lookup itself update it), and the lookup
    [Client.get_account_transaction], a wrapper over [Client.execute]. *)
Context {W Address : Type}.
Variable time_time : W -> T * W.
Variable time_sleep : T -> W -> W.
Variable tracker : W -> State.
Variable get_account_transaction :
  Address -> Z -> bool -> W -> result (option Transaction) * W.
(** The constants of [diem.jsonrpc.constants], which is not among the
    sources. *)
Variable VM_STATUS_EXECUTED : string.
Variable DEFAULT_WAIT_FOR_TRANSACTION_TIMEOUT_SECS : T.
Variable DEFAULT_WAIT_FOR_TRANSACTION_WAIT_DURATION_SECS : T.

(** The [while] loop of [wait_for_transaction2] and the [raise] after it.
    [None] means the fuel did not suffice. *)
Fixpoint wait_loop (address : Address) (seq : Z) (expiration_time_secs : Z)
    (txn_hash : string) (wait_duration_secs : option T)
    (start_time max_wait : T) (fuel : nat) (w : W) : option (wait_result T * W) :=
  match fuel with
  | O => None
  | Datatypes.S fuel' =>
      let '(now, w) := time_time w in
      if flt now max_wait then
        let state := get_last_known_state (tracker w) in
        match get_account_transaction address seq true w with
        | (Raise e, w) => Some (Failed (Propagated e), w)
        | (Return (Some txn), w) =>
            if negb (String.eqb (hash txn) txn_hash) then
              Some (Failed (TransactionHashMismatchError txn txn_hash), w)
            else if negb (String.eqb (vm_status_type txn) VM_STATUS_EXECUTED) then
              Some (Failed (TransactionExecutionFailed txn), w)
            else Some (Found txn, w)
        | (Return None, w) =>
            match py_le (PyInt (expiration_time_secs * 1000000)) (timestamp_usecs state) with
            | None => Some (Failed (Propagated TypeError), w)
            | Some true => Some (Failed (TransactionExpired state expiration_time_secs), w)
            | Some false =>
                wait_loop address seq expiration_time_secs txn_hash wait_duration_secs
                  start_time max_wait fuel'
                  (time_sleep
                     (py_or wait_duration_secs DEFAULT_WAIT_FOR_TRANSACTION_WAIT_DURATION_SECS)
                     w)
            end
        end
      else
        let '(end_time, w) := time_time w in
        Some (Failed (WaitForTransactionTimeout start_time end_time), w)
  end.

(** [Client.wait_for_transaction2]. *)
Definition wait_for_transaction2 (address : Address) (seq : Z) (expiration_time_secs : Z)
    (txn_hash : string) (timeout_secs wait_duration_secs : option T)
    (fuel : nat) (w : W) : option (wait_result T * W) :=
  let '(start_time, w) := time_time w in
  let max_wait := fadd start_time (py_or timeout_secs DEFAULT_WAIT_FOR_TRANSACTION_TIMEOUT_SECS) in
  wait_loop address seq expiration_time_secs txn_hash wait_duration_secs
    start_time max_wait fuel w.

(** One round of the loop that neither returns nor raises, as a change of
    the world: the clock is read, the lookup runs, the loop sleeps. *)
Definition poll_round (address : Address) (seq : Z) (wait_duration_secs : option T) (w : W) : W :=
  let w1 := snd (time_time w) in
  let w2 := snd (get_account_transaction address seq true w1) in
  time_sleep (py_or wait_duration_secs DEFAULT_WAIT_FOR_TRANSACTION_WAIT_DURATION_SECS) w2.

(** The world at the start of round [n], when the first round starts in
    [w] and no earlier round ends the loop. *)
Fixpoint after_rounds (address : Address) (seq : Z) (wait_duration_secs : option T)
    (n : nat) (w : W) : W :=
  match n with
  | O => w
  | Datatypes.S n' =>
      after_rounds address seq wait_duration_secs n' (poll_round address seq wait_duration_secs w)
  end.

(** What round [n] sees: the clock reading of its loop test, the snapshot
    of the tracker it takes, and the answer of its lookup. *)
Definition round_now (address : Address) (seq : Z) (wait_duration_secs : option T)
    (n : nat) (w : W) : T :=
  fst (time_time (after_rounds address seq wait_duration_secs n w)).

Definition round_state (address : Address) (seq : Z) (wait_duration_secs : option T)
    (n : nat) (w : W) : State :=
  get_last_known_state
    (tracker (snd (time_time (after_rounds address seq wait_duration_secs n w)))).

Definition round_lookup (address : Address) (seq : Z) (wait_duration_secs : option T)
    (n : nat) (w : W) : result (option Transaction) * W :=
  get_account_transaction address seq true
    (snd (time_time (after_rounds address seq wait_duration_secs n w))).

(** Round [i] goes by: it starts within the window, finds no transaction
    and sees a ledger that has not reached the expiration. *)
Definition goes_by (address : Address) (seq : Z) (expiration_time_secs : Z)
    (wait_duration_secs : option T) (max_wait : T) (w : W) (i : nat) : Prop :=
  flt (round_now address seq wait_duration_secs i w) max_wait = true /\
  fst (round_lookup address seq wait_duration_secs i w) = Return None /\
  exists ts, timestamp_usecs (round_state address seq wait_duration_secs i w) = PyInt ts /\
             ts < expiration_time_secs * 1000000.
End WaitForTransaction.

(** ** Sample instances *)

(** The test [isinstance(e, StaleResponseError)], the class the client's
    default [Retry] names. *)
Definition is_StaleResponseError (e : error) : bool :=
  bool_decide (e = StaleResponseError).

(** A policy of three attempts with a delay of a fifth of a second. *)
Definition sample_retry : Retry Q := mkRetry 3 (1 # 5) is_StaleResponseError.

(** An operation that counts its invocations, finds the response stale
    during the first [failures] of them and returns 42 afterwards. *)
Definition flaky (failures : nat) (calls : nat) : result Z * nat :=
  if (calls <? failures)%nat then (Raise StaleResponseError, Datatypes.S calls)
  else (Return 42, Datatypes.S calls).

(** An operation that finds every response stale. *)
Definition always_stale (calls : nat) : result Z * nat :=
  (Raise StaleResponseError, Datatypes.S calls).

(** An operation that fails on the network. *)
Definition unreachable (calls : nat) : result Z * nat :=
  (Raise NetworkError, Datatypes.S calls).

(** A world for the wait loop that counts the sleeps: the clock shows one
    second per sleep, the ledger is one version and one second further on
    after each sleep, and the lookup never finds the transaction. *)
Definition tick_time (w : nat) : Q * nat := (inject_Z (Z.of_nat w), w).
Definition tick_sleep (secs : Q) (w : nat) : nat := Datatypes.S w.
Definition tick_tracker (w : nat) : State :=
  IntState 2 (Z.of_nat w) (Z.of_nat w * 1000000).
Definition tick_lookup (address : string) (seq : Z) (include_events : bool) (w : nat)
  : result (option Transaction) * nat := (Return None, w).

(** ** submit *)

Section Submit.
(** [diem_types.SignedTransaction] and its BCS serialization are not among
    the sources; [bcs_serialize_hex] stands for [txn.bcs_serialize().hex()]. *)
Context {SignedTransaction : Type}.
Variable bcs_serialize_hex : SignedTransaction -> string.

(** [Client.submit]: a signed transaction is serialized and submitted as
    its hex string; the call is made once, with [ignore_stale_response=True]
    and without a parser, and its value is dropped. *)
Definition submit (rs : RequestStrategy) (url : string) (env : Env) (st : State)
    (txn : SignedTransaction + string) : State * result unit :=
  let hex := match txn with
             | inl signed => bcs_serialize_hex signed
             | inr s => s
             end in
  match execute_without_retry (V := unit) rs url env st "submit" [PyStr hex] None (Some true) with
  | (st', Return _) => (st', Return tt)
  | (st', Raise e) => (st', Raise e)
  end.
End Submit.

(** ** The retrying entry point and two method wrappers *)

(** [bool(v)]: [None], zero and the empty string are false. *)
Definition py_truthy (v : pyval) : bool :=
  match v with
  | PyNone => false
  | PyInt z => negb (z =? 0)
  | PyStr s => negb (String.eqb s "")
  end.

(** What a [Client] is built with: its [_url], [_retry] and [_rs]. *)
Record Client (T : Type) : Type := mkClient {
  _url : string;
  _retry : Retry T;
  _rs : RequestStrategy
}.
Arguments mkClient {T} _url _retry _rs.
Arguments _url {T} c.
Arguments _retry {T} c.
Arguments _rs {T} c.

(** What changes while a client works: the stored ledger state, the number
    of logical requests it has sent, and the backoff sleeps it has made. *)
Record Session (T : Type) : Type := mkSession {
  stored : State;
  sent : nat;
  slept : list T
}.
Arguments mkSession {T} stored sent slept.
Arguments stored {T} s.
Arguments sent {T} s.
Arguments slept {T} s.

(** Modelled from the spec: [rpc.Account] is a generated protobuf message
    that is not among the sources; the record holds the fields the client
    reads, [account.sequence_number] and those of [account.role].  An unset
    string field reads as the empty string. *)
Record Account : Type := mkAccount {
  sequence_number : Z;
  role_type : string;
  parent_vasp_address : string;
  compliance_key : string;
  base_url : string;
  vasp_domain_events_key : string
}.

(** [_parse_obj(factory)]: [ParseDict] of the result, or [None] for a false
    result.  [parse_dict] stands for [parser.ParseDict(_, factory(), ...)]. *)
Definition _parse_obj {A} (parse_dict : pyval -> result A) (result0 : pyval)
  : result (option A) :=
  if py_truthy result0 then
    match parse_dict result0 with
    | Return a => Return (Some a)
    | Raise e => Raise e
    end
  else Return None.

Section ClientExecute.
Context {T : Type} `{PyFloat T}.
Variable self : Client T.
(** The surroundings of the [k]-th logical request the client sends. *)
Variable net : nat -> Env.

(** The closure [Client.execute] hands to the retry policy: one call of
    [execute_without_retry]. *)
Definition attempt {V} (method0 : string) (params0 : list pyval)
    (result_parser : option (pyval -> result V)) (ignore_stale_response : option bool)
    (s : Session T) : result (option V) * Session T :=
  let '(st', r) :=
    execute_without_retry (_rs self) (_url self) (net (sent s)) (stored s)
      method0 params0 result_parser ignore_stale_response in
  (r, mkSession st' (Datatypes.S (sent s)) (slept s)).

(** [Client.execute].  The value is that of the closure, or [None] for the
    fall through the retry loop; the sleeps of the policy are appended to
    the session's.  [execute] always ends ([execute_total]), so the last
    case is never taken. *)
Definition Client_execute {V} (method0 : string) (params0 : list pyval)
    (result_parser : option (pyval -> result V)) (ignore_stale_response : option bool)
    (s : Session T) : result (option V) * Session T :=
  match execute (_retry self)
          (attempt method0 params0 result_parser ignore_stale_response) s with
  | Some (Return (Some v), s', tr) =>
      (Return v, mkSession (stored s') (sent s') (slept s' ++ sleeps tr))
  | Some (Return None, s', tr) =>
      (Return None, mkSession (stored s') (sent s') (slept s' ++ sleeps tr))
  | Some (Raise e, s', tr) =>
      (Raise e, mkSession (stored s') (sent s') (slept s' ++ sleeps tr))
  | None => (Return None, s)
  end.

(** [Client.get_metadata]: [params = [int(version)] if version else []]. *)
Definition get_metadata {Metadata} (parse_metadata : pyval -> result Metadata)
    (version0 : option Z) (s : Session T) : result (option Metadata) * Session T :=
  let params0 := match version0 with
                 | Some z => if py_truthy (PyInt z) then [PyInt z] else []
                 | None => []
                 end in
  match Client_execute "get_metadata" params0 (Some (_parse_obj parse_metadata)) None s with
  | (Return (Some found), s') => (Return found, s')
  | (Return None, s') => (Return None, s')
  | (Raise e, s') => (Raise e, s')
  end.

(** [Client.get_account], on the hex form of the address
    ([utils.account_address_hex] is not among the sources). *)
Definition get_account (parse_account : pyval -> result Account)
    (account_address : string) (s : Session T) : result (option Account) * Session T :=
  match Client_execute "get_account" [PyStr account_address]
          (Some (_parse_obj parse_account)) None s with
  | (Return (Some found), s') => (Return found, s')
  | (Return None, s') => (Return None, s')
  | (Raise e, s') => (Raise e, s')
  end.
End ClientExecute.

(** ** Account lookups and the VASP domain map *)

(** The exceptions of the functions above the JSON-RPC layer: one of that
    layer passing through, or one of their own. *)
Inductive client_error : Type :=
| FromRpc (e : error)
| AccountNotFoundError (account_address : string)
| ValueError
| KeyError (key : string).

Inductive outcome (A : Type) : Type :=
| Ok (a : A)
| Fail (e : client_error).
Arguments Ok {A} a.
Arguments Fail {A} e.

(** Modelled from the spec: the [data] of an [rpc.Event] of the VASP domain
    event stream, a protobuf message that is not among the sources, with the
    three fields [get_vasp_domain_map] reads. *)
Record EventData : Type := mkEventData {
  data_removed : bool;
  data_domain : string;
  data_address : string
}.

(** The body of the [for] loop of [get_vasp_domain_map]: [del] of a key
    that is not in the dict raises [KeyError]. *)
Definition apply_event (domain_map : gmap string string) (ev : EventData)
  : outcome (gmap string string) :=
  if data_removed ev then
    match domain_map !! data_domain ev with
    | Some _ => Ok (delete (data_domain ev) domain_map)
    | None => Fail (KeyError (data_domain ev))
    end
  else Ok (<[data_domain ev := data_address ev]> domain_map).

(** The [for] loop over one batch of events. *)
Fixpoint apply_events (domain_map : gmap string string) (events : list EventData)
  : outcome (gmap string string) :=
  match events with
  | [] => Ok domain_map
  | ev :: events' =>
      match apply_event domain_map ev with
      | Ok domain_map' => apply_events domain_map' events'
      | Fail e => Fail e
      end
  end.

Section AccountLookups.
(** The world these functions run in and the two method wrappers they call,
    [Client.get_account] and [Client.get_events], as collaborators. *)
Context {W : Type}.
Variable get_account : string -> W -> result (option Account) * W.
Variable get_events : string -> Z -> Z -> W -> result (list EventData) * W.
(** The constants of [diem] and [diem.jsonrpc.constants], which are not
    among the sources. *)
Variable ACCOUNT_ROLE_PARENT_VASP : string.
Variable ACCOUNT_ROLE_CHILD_VASP : string.
Variable TREASURY_ADDRESS : string.
(** [Ed25519PublicKey.from_public_bytes(bytes.fromhex(_))]; [None] is its
    [ValueError]. *)
Context {PublicKey : Type}.
Variable public_key_from_hex : string -> option PublicKey.

(** [Client.must_get_account]. *)
Definition must_get_account (account_address : string) (w : W) : outcome Account * W :=
  match get_account account_address w with
  | (Raise e, w') => (Fail (FromRpc e), w')
  | (Return None, w') => (Fail (AccountNotFoundError account_address), w')
  | (Return (Some account), w') => (Ok account, w')
  end.

(** [Client.get_account_sequence]. *)
Definition get_account_sequence (account_address : string) (w : W) : outcome Z * W :=
  match get_account account_address w with
  | (Raise e, w') => (Fail (FromRpc e), w')
  | (Return None, w') => (Fail (AccountNotFoundError account_address), w')
  | (Return (Some account), w') => (Ok (sequence_number account), w')
  end.

(** [Client.get_parent_vasp_account]; the recursion has no bound of its
    own.  [fuel] is the depth allowed and [None] means that the walk is
    still going at that depth; the [RecursionError] with which the
    interpreter ends a walk that is too deep is not modelled. *)
Fixpoint get_parent_vasp_account (fuel : nat) (vasp_account_address : string) (w : W)
  : option (outcome Account * W) :=
  match fuel with
  | O => None
  | Datatypes.S fuel' =>
      match must_get_account vasp_account_address w with
      | (Fail e, w') => Some (Fail e, w')
      | (Ok account, w') =>
          if String.eqb (role_type account) ACCOUNT_ROLE_PARENT_VASP then Some (Ok account, w')
          else if String.eqb (role_type account) ACCOUNT_ROLE_CHILD_VASP then
            get_parent_vasp_account fuel' (parent_vasp_address account) w'
          else Some (Fail ValueError, w')
      end
  end.

(** [Client.get_base_url_and_compliance_key]. *)
Fixpoint get_base_url_and_compliance_key (fuel : nat) (account_address : string) (w : W)
  : option (outcome (string * PublicKey) * W) :=
  match fuel with
  | O => None
  | Datatypes.S fuel' =>
      match must_get_account account_address w with
      | (Fail e, w') => Some (Fail e, w')
      | (Ok account, w') =>
          if py_truthy (PyStr (compliance_key account)) && py_truthy (PyStr (base_url account))
          then
            match public_key_from_hex (compliance_key account) with
            | Some key => Some (Ok (base_url account, key), w')
            | None => Some (Fail ValueError, w')
            end
          else if py_truthy (PyStr (parent_vasp_address account)) then
            get_base_url_and_compliance_key fuel' (parent_vasp_address account) w'
          else Some (Fail ValueError, w')
      end
  end.

(** [Client.support_diem_id]. *)
Definition support_diem_id (w : W) : outcome bool * W :=
  match must_get_account TREASURY_ADDRESS w with
  | (Fail e, w') => (Fail e, w')
  | (Ok tc_account, w') => (Ok (py_truthy (PyStr (vasp_domain_events_key tc_account))), w')
  end.

(** The [while True] loop of [get_vasp_domain_map]. *)
Fixpoint domain_map_loop (fuel : nat) (event_stream_key : string) (batch_size : Z)
    (event_index : Z) (domain_map : gmap string string) (w : W)
  : option (outcome (gmap string string) * W) :=
  match fuel with
  | O => None
  | Datatypes.S fuel' =>
      match get_events event_stream_key event_index batch_size w with
      | (Raise e, w') => Some (Fail (FromRpc e), w')
      | (Return events, w') =>
          match apply_events domain_map events with
          | Fail e => Some (Fail e, w')
          | Ok domain_map' =>
              if Z.of_nat (length events) <? batch_size then Some (Ok domain_map', w')
              else domain_map_loop fuel' event_stream_key batch_size
                     (event_index + batch_size) domain_map' w'
          end
      end
  end.

(** [Client.get_vasp_domain_map]. *)
Definition get_vasp_domain_map (fuel : nat) (batch_size : Z) (w : W)
  : option (outcome (gmap string string) * W) :=
  match must_get_account TREASURY_ADDRESS w with
  | (Fail e, w') => Some (Fail e, w')
  | (Ok tc_account, w') =>
      domain_map_loop fuel (vasp_domain_events_key tc_account) batch_size 0 ∅ w'
  end.
End AccountLookups.

(** What a run of events leaves for one domain: the address of the last
    event that names it if that event adds, nothing if it removes, and
    [before] if no event names it. *)
Fixpoint last_write (d : string) (events : list EventData) (before : option string)
  : option string :=
  match events with
  | [] => before
  | ev :: events' =>
      last_write d events'
        (if String.eqb (data_domain ev) d
         then (if data_removed ev then None else Some (data_address ev))
         else before)
  end.

(** ** More sample instances *)

(** A ledger with a parent VASP account, a child of it, and a child account
    that names itself as its parent. *)
Definition sample_accounts (account_address : string) : option Account :=
  if String.eqb account_address "aa" then
    Some (mkAccount 5 "parent_vasp" "" "20" "https://vasp.example" "")
  else if String.eqb account_address "bb" then
    Some (mkAccount 7 "child_vasp" "aa" "" "" "")
  else if String.eqb account_address "cc" then
    Some (mkAccount 0 "child_vasp" "cc" "" "" "")
  else if String.eqb account_address "tc" then
    Some (mkAccount 0 "treasury_compliance" "" "" "" "events")
  else None.

(** The lookups of a world that counts them. *)
Definition sample_get_account (account_address : string) (w : nat)
  : result (option Account) * nat :=
  (Return (sample_accounts account_address), Datatypes.S w).

(** An event stream, and a server that pages through it. *)
Definition sample_events : list EventData :=
  [mkEventData false "alice" "a1"; mkEventData false "bob" "b1";
   mkEventData true "alice" ""; mkEventData false "bob" "b2";
   mkEventData false "carol" "c1"].

Definition sample_get_events (all : list EventData) (key : string) (start limit : Z) (w : nat)
  : result (list EventData) * nat :=
  (Return (take (Z.to_nat limit) (drop (Z.to_nat start) all)), Datatypes.S w).

(** A lookup for the wait loop that finds the transaction from the
    [k]-th second on. *)
Definition tick_lookup_from (k : nat) (txn : Transaction) (address : string) (seq : Z)
    (include_events : bool) (w : nat) : result (option Transaction) * nat :=
  if (k <=? w)%nat then (Return (Some txn), w) else (Return None, w).

(** A client that sends directly and retries a stale response twice. *)
Definition sample_client : Client Q := mkClient "https://node.example" sample_retry Direct.

(** * Properties *)

(** ** The tracker *)

Example update_fresh :
  update_last_known_state initial_state (PyInt 2) (PyInt 10) (PyInt 1000)
  = (IntState 2 10 1000, Return tt).
Proof. reflexivity. Qed.

Example update_end_to_end :
  update_last_known_state (IntState 2 10 1000) (PyInt 2) (PyInt 9) (PyInt 1000)
  = (IntState 2 10 1000, Raise StaleResponseError).
Proof. reflexivity. Qed.

Lemma py_ne_true a b : py_ne a b = true <-> a <> b.
Proof.
  unfold py_ne. rewrite negb_true_iff, bool_decide_eq_false. reflexivity.
Qed.

Lemma py_ne_false a b : py_ne a b = false <-> a = b.
Proof.
  unfold py_ne. rewrite negb_false_iff, bool_decide_eq_true. reflexivity.
Qed.

(** A call that raises leaves the stored state as it was. *)
Lemma update_raise_unchanged curr c v t st' e :
  update_last_known_state curr c v t = (st', Raise e) -> st' = curr.
Proof.
  unfold update_last_known_state.
  destruct (_ && _); [congruence|].
  destruct (py_gt (version curr) v) as [[]|]; try congruence.
  destruct (py_gt (timestamp_usecs curr) t) as [[]|]; congruence.
Qed.

(** A call that returns has stored the incoming triple. *)
Lemma update_return_stored curr c v t st' :
  update_last_known_state curr c v t = (st', Return tt) -> st' = mkState c v t.
Proof.
  unfold update_last_known_state.
  destruct (_ && _); [congruence|].
  destruct (py_gt (version curr) v) as [[]|]; try congruence.
  destruct (py_gt (timestamp_usecs curr) t) as [[]|]; congruence.
Qed.

(** One call never lowers an int version or timestamp, and keeps both ints. *)
Lemma update_step_monotone curr c v t v0 t0 :
  version curr = PyInt v0 -> timestamp_usecs curr = PyInt t0 ->
  exists v1 t1,
    version (fst (update_last_known_state curr c v t)) = PyInt v1 /\
    timestamp_usecs (fst (update_last_known_state curr c v t)) = PyInt t1 /\
    v0 <= v1 /\ t0 <= t1.
Proof.
  intros Hv Ht. unfold update_last_known_state.
  destruct (_ && _); simpl; [exists v0, t0; repeat split; auto; lia|].
  rewrite Hv, Ht.
  destruct v as [|v1|]; simpl; try (exists v0, t0; rewrite Hv, Ht; repeat split; auto; lia).
  destruct (Z.gtb_spec v0 v1); simpl; [exists v0, t0; rewrite Hv, Ht; repeat split; auto; lia|].
  destruct t as [|t1|]; simpl; try (exists v0, t0; rewrite Hv, Ht; repeat split; auto; lia).
  destruct (Z.gtb_spec t0 t1); simpl; [exists v0, t0; rewrite Hv, Ht; repeat split; auto; lia|].
  exists v1, t1. repeat split; auto.
Qed.

Lemma run_updates_monotone calls : forall curr v0 t0,
  version curr = PyInt v0 -> timestamp_usecs curr = PyInt t0 ->
  exists v1 t1,
    version (run_updates curr calls) = PyInt v1 /\
    timestamp_usecs (run_updates curr calls) = PyInt t1 /\
    v0 <= v1 /\ t0 <= t1.
Proof.
  induction calls as [|[[c v] t] calls IH]; intros curr v0 t0 Hv Ht.
  - exists v0, t0. simpl. repeat split; auto; lia.
  - destruct (update_step_monotone curr c v t v0 t0 Hv Ht) as (v1 & t1 & Hv1 & Ht1 & Hle1 & Hle2).
    destruct (IH _ _ _ Hv1 Ht1) as (v2 & t2 & Hv2 & Ht2 & Hle3 & Hle4).
    exists v2, t2. unfold run_updates in *. simpl. repeat split; auto; lia.
Qed.

(** C1, as stated, fails: a call with a smaller version on a tracker whose
    chain id is set to another value is rejected by the identity check, with
    [InvalidServerResponse], not with [StaleResponseError]. *)
Lemma stale_version_on_other_chain :
  9 < 10 /\
  update_last_known_state (IntState 2 10 1000) (PyInt 3) (PyInt 9) (PyInt 1000)
  = (IntState 2 10 1000, Raise InvalidServerResponse) /\
  update_last_known_state (IntState 2 10 1000) (PyInt 3) (PyInt 9) (PyInt 1000)
  <> (IntState 2 10 1000, Raise StaleResponseError).
Proof. split; [lia|]. split; [reflexivity|discriminate]. Qed.

(** C1 (amended): over every sequence of calls the stored version and
    timestamp_usecs never decrease; and a call that passes the identity check
    (the stored chain id is -1 or equal to the incoming one) fails with
    [StaleResponseError] and leaves the stored state unchanged when its
    version or timestamp is strictly smaller than the stored one, and
    otherwise replaces the stored state by the incoming triple and
    succeeds. *)
Theorem update_last_known_state_monotone (c v t c' v' t' : Z) :
  (forall calls, exists v1 t1,
      version (run_updates (IntState c v t) calls) = PyInt v1 /\
      timestamp_usecs (run_updates (IntState c v t) calls) = PyInt t1 /\
      v <= v1 /\ t <= t1) /\
  (c = -1 \/ c = c' ->
   (v' < v \/ t' < t ->
    update_last_known_state (IntState c v t) (PyInt c') (PyInt v') (PyInt t')
    = (IntState c v t, Raise StaleResponseError)) /\
   (v <= v' /\ t <= t' ->
    update_last_known_state (IntState c v t) (PyInt c') (PyInt v') (PyInt t')
    = (IntState c' v' t', Return tt))).
Proof.
  split.
  - intros calls. apply run_updates_monotone; reflexivity.
  - intros Hc.
    assert (Hid : py_ne (PyInt c) (PyInt (-1)) && py_ne (PyInt c) (PyInt c') = false).
    { apply andb_false_iff. destruct Hc as [->| ->]; [left|right]; apply py_ne_false; reflexivity. }
    unfold update_last_known_state, IntState. simpl chain_id. rewrite Hid. simpl.
    split.
    + intros Hlt. destruct (Z.gtb_spec v v'); [reflexivity|].
      destruct (Z.gtb_spec t t'); [reflexivity|lia].
    + intros [Hv Ht]. destruct (Z.gtb_spec v v'); [lia|].
      destruct (Z.gtb_spec t t'); [lia|reflexivity].
Qed.

Lemma update_last_known_state_monotone_witness :
  (2 = -1 \/ 2 = 2) /\ (9 < 10 \/ 1000 < 1000) /\
  update_last_known_state (IntState 2 10 1000) (PyInt 2) (PyInt 9) (PyInt 1000)
  = (IntState 2 10 1000, Raise StaleResponseError).
Proof.
  split; [right; reflexivity|]. split; [left; lia|].
  apply (update_last_known_state_monotone 2 10 1000 2 9 1000);
    [right; reflexivity | left; lia].
Defined.

(** C2: once the stored chain id is set (it is not -1), a call with a
    different chain id fails with [InvalidServerResponse], the code's name for
    the inconsistent chain, and leaves the stored state unchanged, whatever
    version and timestamp it supplies; it never fails with
    [StaleResponseError]. *)
Theorem update_last_known_state_other_chain (curr : State) (c v t : pyval) :
  chain_id curr <> PyInt (-1) -> chain_id curr <> c ->
  update_last_known_state curr c v t = (curr, Raise InvalidServerResponse) /\
  snd (update_last_known_state curr c v t) <> Raise StaleResponseError.
Proof.
  intros H1 H2. apply py_ne_true in H1. apply py_ne_true in H2.
  unfold update_last_known_state. rewrite H1, H2. simpl. split; [reflexivity|discriminate].
Qed.

Lemma update_last_known_state_other_chain_witness :
  update_last_known_state (IntState 2 10 1000) (PyInt 4) (PyInt 3) (PyInt 5)
  = (IntState 2 10 1000, Raise InvalidServerResponse).
Proof.
  apply (update_last_known_state_other_chain (IntState 2 10 1000) (PyInt 4) (PyInt 3) (PyInt 5));
    simpl; discriminate.
Defined.

(** ** The per-call pipeline *)

Example envelope_fresh :
  execute_without_retry (V := pyval) Direct "u"
    (mkEnv (fun _ _ _ => Body {[ "result" := PyStr "ok"; "diem_chain_id" := PyInt 2;
                                 "diem_ledger_version" := PyInt 10;
                                 "diem_ledger_timestampusec" := PyInt 1000 ]}) 0 true true)
    initial_state "get_metadata" [] (Some Return) None
  = (IntState 2 10 1000, Return (Some (PyStr "ok"))).
Proof. vm_compute. reflexivity. Qed.

(** Nothing is greater than [None] without a [TypeError]. *)
Lemma py_gt_None a : py_gt a PyNone = None.
Proof. destruct a; reflexivity. Qed.

(** The tracker update on three absent fields fails and stores nothing; the
    error depends on the stored state alone, and it is
    [InvalidServerResponse] when the stored chain id is set. *)
Lemma update_None_fails curr :
  exists e,
    (chain_id curr <> PyInt (-1) -> chain_id curr <> PyNone -> e = InvalidServerResponse) /\
    e <> StaleResponseError /\
    update_last_known_state curr PyNone PyNone PyNone = (curr, Raise e).
Proof.
  unfold update_last_known_state.
  destruct (py_ne (chain_id curr) (PyInt (-1))) eqn:H1;
    destruct (py_ne (chain_id curr) PyNone) eqn:H2; simpl;
    try rewrite py_gt_None;
    eexists; (split; [|split; [|reflexivity]]); try discriminate; try reflexivity;
    intros Hset Hnone;
    try (apply py_ne_false in H1; contradiction);
    try (apply py_ne_false in H2; contradiction).
Qed.

(** C3, as stated, fails: on a fresh client, a response with a result and
    without the three ledger-state fields makes the call raise [TypeError]
    where the claim has it return the parsed result; with the flag
    [ignore_stale_response] set it is the same. *)
Lemma envelope_without_ledger_state_raises :
  execute_without_retry (V := pyval) Direct "u"
    (mkEnv (fun _ _ _ => Body {[ "jsonrpc" := PyStr "2.0"; "id" := PyInt 1;
                                 "result" := PyStr "ok" ]}) 0 true true)
    initial_state "get_metadata" [] (Some Return) None
  = (initial_state, Raise TypeError) /\
  execute_without_retry (V := pyval) Direct "u"
    (mkEnv (fun _ _ _ => Body {[ "jsonrpc" := PyStr "2.0"; "id" := PyInt 1;
                                 "result" := PyStr "ok" ]}) 0 true true)
    initial_state "get_metadata" [] (Some Return) (Some true)
  = (initial_state, Raise TypeError).
Proof. split; vm_compute; reflexivity. Qed.

(** C3 (amended): the absence of the three ledger-state fields is not
    tolerated.  For a response whose envelope lacks them the pipeline
    performs no tracker update and the call fails, whatever the flag
    [ignore_stale_response] is, with an error that depends on the stored
    state alone and not on the envelope, whose result or error is thus not
    classified; the error is [InvalidServerResponse] when the stored chain
    id is set, that is neither -1 nor [None]. *)
Theorem envelope_without_ledger_state (st : State) :
  exists e,
    (chain_id st <> PyInt (-1) -> chain_id st <> PyNone -> e = InvalidServerResponse) /\
    forall (V : Type) (json : gmap string pyval) (url : string) (env : Env)
           (method0 : string) (params0 : list pyval)
           (result_parser : option (pyval -> result V)) (ignore_stale_response : option bool),
      json !! "diem_chain_id" = None ->
      json !! "diem_ledger_version" = None ->
      json !! "diem_ledger_timestampusec" = None ->
      post env 0%nat url (mkRequest "2.0" 1 method0 params0) = Body json ->
      _send_http_request st (Body json) (or_False ignore_stale_response) = (st, Raise e) /\
      execute_without_retry Direct url env st method0 params0 result_parser
        ignore_stale_response
      = (st, Raise e).
Proof.
  destruct (update_None_fails st) as (e & Hset & Hstale & Hup).
  exists e. split; [exact Hset|].
  intros V json url env method0 params0 result_parser ignore_stale_response Hc Hv Ht Hpost.
  assert (Hsend : _send_http_request st (Body json) (or_False ignore_stale_response)
                  = (st, Raise e)).
  { unfold _send_http_request, dict_get. rewrite Hc, Hv, Ht. simpl. rewrite Hup.
    destruct e; try reflexivity. contradiction. }
  split; [exact Hsend|].
  unfold execute_without_retry, send_request. rewrite Hpost, Hsend.
  assert (Hwrap : wrap_errors (@Raise (option V) e) = Raise e).
  { revert Hup. unfold update_last_known_state.
    destruct (_ && _); [intros [= <-]; reflexivity|].
    rewrite py_gt_None. intros [= <-]. reflexivity. }
  rewrite Hwrap. reflexivity.
Qed.

Lemma envelope_without_ledger_state_witness :
  execute_without_retry (V := pyval) Direct "u"
    (mkEnv (fun _ _ _ => Body {[ "result" := PyStr "ok" ]}) 0 true true)
    (IntState 2 10 1000) "get_metadata" [] (Some Return) (Some true)
  = (IntState 2 10 1000, Raise InvalidServerResponse).
Proof.
  destruct (envelope_without_ledger_state (IntState 2 10 1000)) as (e & Hset & Hall).
  rewrite <- Hset; [|simpl; discriminate|simpl; discriminate].
  apply (Hall pyval {[ "result" := PyStr "ok" ]} "u"
           (mkEnv (fun _ _ _ => Body {[ "result" := PyStr "ok" ]}) 0 true true)
           "get_metadata" [] (Some Return) (Some true));
    vm_compute; reflexivity.
Defined.

(** [_send_http_request] on a body whose fields the tracker finds stale. *)
Lemma send_stale st json ignore :
  snd (update_last_known_state st (dict_get json "diem_chain_id")
         (dict_get json "diem_ledger_version")
         (dict_get json "diem_ledger_timestampusec")) = Raise StaleResponseError ->
  _send_http_request st (Body json) ignore
  = (st, if ignore then Return json else Raise StaleResponseError).
Proof.
  intros Hup. unfold _send_http_request.
  destruct (update_last_known_state _ _ _ _) as [st' r] eqn:E. simpl in Hup. subst r.
  apply update_raise_unchanged in E. subst st'. destruct ignore; reflexivity.
Qed.

(** [_send_http_request] on a body whose fields the tracker accepts. *)
Lemma send_fresh st json ignore :
  snd (update_last_known_state st (dict_get json "diem_chain_id")
         (dict_get json "diem_ledger_version")
         (dict_get json "diem_ledger_timestampusec")) = Return tt ->
  snd (_send_http_request st (Body json) ignore) = Return json.
Proof.
  intros Hup. unfold _send_http_request.
  destruct (update_last_known_state _ _ _ _) as [st' r] eqn:E. simpl in Hup. subst r.
  reflexivity.
Qed.

(** C4: when the tracker update of a response raises [StaleResponseError],
    [execute_without_retry] raises it to its caller if the flag
    [ignore_stale_response] is false (or absent), through whatever strategy
    the error came; if the flag is true the error is swallowed and the call
    ends as the classification of the same envelope does, which is how it
    ends on a tracker that accepts the response. *)
Theorem execute_without_retry_stale (V : Type) (st : State) (json : gmap string pyval)
    (url : string) (env : Env) (method0 : string) (params0 : list pyval)
    (result_parser : option (pyval -> result V)) :
  post env 0%nat url (mkRequest "2.0" 1 method0 params0) = Body json ->
  snd (update_last_known_state st (dict_get json "diem_chain_id")
         (dict_get json "diem_ledger_version")
         (dict_get json "diem_ledger_timestampusec")) = Raise StaleResponseError ->
  (forall flag, or_False flag = false ->
     execute_without_retry Direct url env st method0 params0 result_parser flag
     = (st, Raise StaleResponseError)) /\
  (forall rs st0 env0 flag,
     snd (send_request rs url env0 st0 (mkRequest "2.0" 1 method0 params0) (or_False flag))
     = Raise StaleResponseError ->
     snd (execute_without_retry rs url env0 st0 method0 params0 result_parser flag)
     = Raise StaleResponseError) /\
  execute_without_retry Direct url env st method0 params0 result_parser (Some true)
  = (st, wrap_errors (classify json result_parser)) /\
  (forall st0 flag,
     snd (update_last_known_state st0 (dict_get json "diem_chain_id")
            (dict_get json "diem_ledger_version")
            (dict_get json "diem_ledger_timestampusec")) = Return tt ->
     snd (execute_without_retry Direct url env st0 method0 params0 result_parser flag)
     = snd (execute_without_retry Direct url env st method0 params0 result_parser (Some true))).
Proof.
  intros Hpost Hstale.
  assert (Htrue : execute_without_retry Direct url env st method0 params0 result_parser (Some true)
                  = (st, wrap_errors (classify json result_parser))).
  { unfold execute_without_retry, send_request. rewrite Hpost.
    rewrite (send_stale _ _ _ Hstale). reflexivity. }
  split; [|split; [|split]].
  - intros flag Hflag. unfold execute_without_retry, send_request.
    rewrite Hpost, Hflag, (send_stale _ _ _ Hstale). reflexivity.
  - intros rs st0 env0 flag Hsend. unfold execute_without_retry.
    destruct (send_request _ _ _ _ _ _) as [st' r]. simpl in Hsend. subst r. reflexivity.
  - exact Htrue.
  - intros st0 flag Hfresh. rewrite Htrue. simpl.
    unfold execute_without_retry, send_request. rewrite Hpost.
    pose proof (send_fresh st0 json (or_False flag) Hfresh) as Hs.
    destruct (_send_http_request _ _ _) as [st' r]. simpl in Hs. subst r. reflexivity.
Qed.

Lemma execute_without_retry_stale_witness :
  execute_without_retry (V := pyval) Direct "u"
    (mkEnv (fun _ _ _ => Body {[ "result" := PyStr "ok"; "diem_chain_id" := PyInt 2;
                                 "diem_ledger_version" := PyInt 9;
                                 "diem_ledger_timestampusec" := PyInt 1000 ]}) 0 true true)
    (IntState 2 10 1000) "submit" [] None (Some true)
  = (IntState 2 10 1000,
     wrap_errors (classify {[ "result" := PyStr "ok"; "diem_chain_id" := PyInt 2;
                              "diem_ledger_version" := PyInt 9;
                              "diem_ledger_timestampusec" := PyInt 1000 ]} None)).
Proof.
  apply (execute_without_retry_stale pyval (IntState 2 10 1000)
           {[ "result" := PyStr "ok"; "diem_chain_id" := PyInt 2;
              "diem_ledger_version" := PyInt 9; "diem_ledger_timestampusec" := PyInt 1000 ]}
           "u"
           (mkEnv (fun _ _ _ => Body {[ "result" := PyStr "ok"; "diem_chain_id" := PyInt 2;
                                        "diem_ledger_version" := PyInt 9;
                                        "diem_ledger_timestampusec" := PyInt 1000 ]}) 0 true true)
           "submit" [] None);
    vm_compute; reflexivity.
Defined.

(** ** The racing strategy *)

(** C9: in fallback mode, whatever the two calls answer and in whatever
    order they reach the tracker, if the primary call raises then
    [send_request] ends as the backup call does, and if the primary call
    returns then [send_request] returns its value, whatever the backup call
    does. *)
Theorem fallback_to_backup_result (env : Env) (st : State) (backups : list string)
    (url backup_url : string) (req : request) (ignore_stale_response : bool)
    (st' : State) (primary backup : result (gmap string pyval)) :
  random_choice env backups = Return backup_url ->
  run_concurrently st (primary_locks_first env)
    (post env 0%nat url req) (post env 1%nat backup_url req) ignore_stale_response
  = (st', primary, backup) ->
  (forall e, primary = Raise e ->
     send_request (RequestWithBackups backups true) url env st req ignore_stale_response
     = (st', backup)) /\
  (forall json, primary = Return json ->
     send_request (RequestWithBackups backups true) url env st req ignore_stale_response
     = (st', Return json)) /\
  (forall json other, _fallback_to_backup (Return json) other = _fallback_to_backup (Return json) backup).
Proof.
  intros Hchoice Hrun. unfold send_request. rewrite Hchoice, Hrun.
  split; [|split].
  - intros e ->. reflexivity.
  - intros json ->. reflexivity.
  - reflexivity.
Qed.

Lemma fallback_to_backup_result_witness :
  send_request (RequestWithBackups ["b1"; "b2"] true) "p"
    (mkEnv (fun k _ _ => match k with
                         | O => StatusNotOk
                         | _ => Body {[ "result" := PyStr "ok"; "diem_chain_id" := PyInt 2;
                                        "diem_ledger_version" := PyInt 10;
                                        "diem_ledger_timestampusec" := PyInt 1000 ]}
                         end) 3 false true)
    initial_state (mkRequest "2.0" 1 "get_metadata" []) false
  = (IntState 2 10 1000,
     Return {[ "result" := PyStr "ok"; "diem_chain_id" := PyInt 2;
               "diem_ledger_version" := PyInt 10;
               "diem_ledger_timestampusec" := PyInt 1000 ]}).
Proof.
  refine (proj1 (fallback_to_backup_result
            (mkEnv (fun k _ _ => match k with
                         | O => StatusNotOk
                         | _ => Body {[ "result" := PyStr "ok"; "diem_chain_id" := PyInt 2;
                                        "diem_ledger_version" := PyInt 10;
                                        "diem_ledger_timestampusec" := PyInt 1000 ]}
                         end) 3 false true)
            initial_state ["b1"; "b2"] "p" "b2" (mkRequest "2.0" 1 "get_metadata" []) false
            (IntState 2 10 1000) (Raise RequestException)
            (Return {[ "result" := PyStr "ok"; "diem_chain_id" := PyInt 2;
                       "diem_ledger_version" := PyInt 10;
                       "diem_ledger_timestampusec" := PyInt 1000 ]}) _ _)
            RequestException _);
    vm_compute; reflexivity.
Defined.

(** ** The retry policy *)

Section RetryProperties.
Context {T : Type} `{PyFloat T} {S V : Type}.
Variable self : Retry T.
Variable fn : S -> result V * S.

(** The loop ends within the fuel [execute] gives it. *)
Lemma execute_loop_total (fuel : nat) : forall tries s,
  (Z.to_nat (max_retries self - tries) < fuel)%nat ->
  exists r, execute_loop self fn fuel tries s = Some r.
Proof.
  induction fuel as [|fuel IH]; intros tries s Hfuel; [lia|].
  simpl. destruct (Z.ltb_spec tries (max_retries self)); [|eauto].
  destruct (fn s) as [[v|e] s']; [eauto|].
  destruct (exception self e); [|eauto].
  destruct (Z.ltb_spec (tries + 1) (max_retries self)); [|eauto].
  destruct (IH (tries + 1) s') as [[[r s''] tr] ->]; [lia|eauto].
Qed.

Lemma execute_total (s : S) : exists r, execute self fn s = Some r.
Proof. apply execute_loop_total. rewrite Z.sub_0_r. lia. Qed.

Lemma invocations_attempts_trace (k : nat) : forall tries,
  invocations (attempts_trace self tries k) = Datatypes.S k.
Proof. induction k as [|k IH]; intros tries; simpl; [reflexivity|]. rewrite IH. reflexivity. Qed.

Lemma sleeps_attempts_trace (k : nat) : forall tries,
  sleeps (attempts_trace self tries k)
  = map (fun i => fmul_int (delay_secs self) (tries + Z.of_nat i)) (seq 1 k).
Proof.
  induction k as [|k IH]; intros tries; simpl; [reflexivity|].
  rewrite IH, <- (seq_shift k 1), map_map. f_equal.
  apply map_ext. intros i. f_equal. lia.
Qed.

Lemma execute_loop_fails_then_succeeds (k : nat) : forall fuel tries s v s_end,
  fails_then_succeeds self fn k s v s_end ->
  tries + Z.of_nat k < max_retries self ->
  (k < fuel)%nat ->
  execute_loop self fn fuel tries s = Some (Return (Some v), s_end, attempts_trace self tries k).
Proof.
  induction k as [|k IH]; intros fuel tries s v s_end Hfn Hmax Hfuel;
    (destruct fuel as [|fuel]; [lia|]); simpl in *.
  - destruct (Z.ltb_spec tries (max_retries self)); [|lia]. rewrite Hfn. reflexivity.
  - destruct Hfn as (e & s' & Hfn & Hexc & Hrest).
    destruct (Z.ltb_spec tries (max_retries self)); [|lia]. rewrite Hfn, Hexc.
    destruct (Z.ltb_spec (tries + 1) (max_retries self)); [|lia].
    rewrite (IH fuel (tries + 1) s' v s_end Hrest); [reflexivity|lia|lia].
Qed.

(** C5: with [max_retries >= 1], an operation that fails with the
    retryable kind [k] times, [k < max_retries], and then returns [v]
    makes [execute] return [v] after exactly [k + 1] invocations, with the
    sleeps [delay_secs * 1], ..., [delay_secs * k], one after each failed
    attempt. *)
Theorem execute_fails_then_succeeds (k : nat) (s : S) (v : V) (s_end : S) :
  1 <= max_retries self ->
  Z.of_nat k < max_retries self ->
  fails_then_succeeds self fn k s v s_end ->
  exists tr,
    execute self fn s = Some (Return (Some v), s_end, tr) /\
    tr = attempts_trace self 0 k /\
    invocations tr = Datatypes.S k /\
    sleeps tr = map (fun i => fmul_int (delay_secs self) (Z.of_nat i)) (seq 1 k).
Proof.
  intros Hmax Hk Hfn. exists (attempts_trace self 0 k).
  split; [|split; [reflexivity|split]].
  - apply execute_loop_fails_then_succeeds; [assumption|lia|lia].
  - apply invocations_attempts_trace.
  - rewrite sleeps_attempts_trace. reflexivity.
Qed.

Lemma execute_loop_always_fails (k : nat) : forall fuel tries s,
  always_fails self fn ->
  tries + Z.of_nat k + 1 = max_retries self ->
  0 <= tries ->
  (k < fuel)%nat ->
  exists e,
    fst (fn (after_attempts fn k s)) = Raise e /\
    execute_loop self fn fuel tries s
    = Some (Raise e, snd (fn (after_attempts fn k s)), attempts_trace self tries k).
Proof.
  induction k as [|k IH]; intros fuel tries s Hall Hmax Htries Hfuel;
    (destruct fuel as [|fuel]; [lia|]); simpl.
  - destruct (Hall s) as (e & Hfn & Hexc). exists e. split; [assumption|].
    destruct (Z.ltb_spec tries (max_retries self)); [|lia].
    destruct (fn s) as [r s']. simpl in Hfn. subst r. rewrite Hexc.
    destruct (Z.ltb_spec (tries + 1) (max_retries self)); [lia|reflexivity].
  - destruct (Hall s) as (e & Hfn & Hexc).
    destruct (IH fuel (tries + 1) (snd (fn s)) Hall) as (e' & Hlast & Hloop); [lia|lia|lia|].
    exists e'. split; [assumption|].
    destruct (Z.ltb_spec tries (max_retries self)); [|lia].
    destruct (fn s) as [r s']. simpl in *. subst r. rewrite Hexc.
    destruct (Z.ltb_spec (tries + 1) (max_retries self)); [|lia].
    rewrite Hloop. reflexivity.
Qed.

(** C6: with [max_retries >= 1], an operation that always fails with the
    retryable kind is invoked exactly [max_retries] times, and [execute]
    raises the very error the last of these invocations raised. *)
Theorem execute_always_fails (s : S) :
  1 <= max_retries self ->
  always_fails self fn ->
  exists e tr,
    fst (fn (after_attempts fn (Z.to_nat (max_retries self) - 1) s)) = Raise e /\
    execute self fn s
    = Some (Raise e, snd (fn (after_attempts fn (Z.to_nat (max_retries self) - 1) s)), tr) /\
    invocations tr = Z.to_nat (max_retries self) /\
    sleeps tr = map (fun i => fmul_int (delay_secs self) (Z.of_nat i))
                  (seq 1 (Z.to_nat (max_retries self) - 1)).
Proof.
  intros Hmax Hall.
  destruct (execute_loop_always_fails (Z.to_nat (max_retries self) - 1)
              (Datatypes.S (Z.to_nat (max_retries self))) 0 s Hall)
    as (e & Hlast & Hloop); [lia|lia|lia|].
  exists e, (attempts_trace self 0 (Z.to_nat (max_retries self) - 1)).
  split; [assumption|]. split; [exact Hloop|]. split.
  - rewrite invocations_attempts_trace. lia.
  - rewrite sleeps_attempts_trace. reflexivity.
Qed.

(** C7: an operation whose first invocation fails with an error that is
    not of the retryable kind is invoked exactly once; [execute] does not
    sleep and raises that error.  (There is a first invocation when
    [max_retries >= 1].) *)
Theorem execute_not_retryable (s s' : S) (e : error) :
  1 <= max_retries self ->
  fn s = (Raise e, s') ->
  exception self e = false ->
  exists tr,
    execute self fn s = Some (Raise e, s', tr) /\
    invocations tr = 1%nat /\ sleeps tr = [].
Proof.
  intros Hmax Hfn Hexc. exists [Invoke]. split; [|split; reflexivity].
  unfold execute. simpl.
  destruct (Z.ltb_spec 0 (max_retries self)); [|lia].
  rewrite Hfn, Hexc. reflexivity.
Qed.
End RetryProperties.

Example execute_no_attempt :
  execute (mkRetry 0 (1 # 5) is_StaleResponseError) (flaky 0) 0%nat = Some (Return None, 0%nat, []).
Proof. reflexivity. Qed.

Lemma execute_fails_then_succeeds_witness :
  exists tr,
    execute sample_retry (flaky 2) 0%nat = Some (Return (Some 42), 3%nat, tr) /\
    tr = attempts_trace sample_retry 0 2 /\
    invocations tr = 3%nat /\
    sleeps tr = map (fun i => fmul_int (delay_secs sample_retry) (Z.of_nat i)) (seq 1 2).
Proof.
  apply (execute_fails_then_succeeds sample_retry (flaky 2) 2 0%nat 42 3%nat).
  - vm_compute. discriminate.
  - reflexivity.
  - simpl. exists StaleResponseError, 1%nat. split; [reflexivity|]. split; [reflexivity|].
    exists StaleResponseError, 2%nat. split; [reflexivity|]. split; reflexivity.
Defined.

Lemma execute_always_fails_witness :
  exists e tr,
    fst (always_stale (after_attempts always_stale (Z.to_nat (max_retries sample_retry) - 1) 0%nat))
    = Raise e /\
    execute sample_retry always_stale 0%nat
    = Some (Raise e,
            snd (always_stale
                   (after_attempts always_stale (Z.to_nat (max_retries sample_retry) - 1) 0%nat)),
            tr) /\
    invocations tr = Z.to_nat (max_retries sample_retry) /\
    sleeps tr = map (fun i => fmul_int (delay_secs sample_retry) (Z.of_nat i))
                  (seq 1 (Z.to_nat (max_retries sample_retry) - 1)).
Proof.
  apply (execute_always_fails sample_retry always_stale 0%nat).
  - vm_compute. discriminate.
  - intros s. exists StaleResponseError. split; reflexivity.
Defined.

Example execute_always_fails_sample :
  execute sample_retry always_stale 0%nat
  = Some (Raise StaleResponseError, 3%nat,
          [Invoke; Sleep (fmul_int (1 # 5) 1); Invoke; Sleep (fmul_int (1 # 5) 2); Invoke]).
Proof. reflexivity. Qed.

Lemma execute_not_retryable_witness :
  exists tr,
    execute sample_retry unreachable 0%nat = Some (Raise NetworkError, 1%nat, tr) /\
    invocations tr = 1%nat /\ sleeps tr = [].
Proof.
  apply (execute_not_retryable sample_retry unreachable 0%nat 1%nat NetworkError).
  - vm_compute. discriminate.
  - reflexivity.
  - reflexivity.
Defined.

(** ** The transaction-wait loop *)

Section WaitProperties.
Context {T : Type} `{PyFloat T} {W Address : Type}.
Variable time_time : W -> T * W.
Variable time_sleep : T -> W -> W.
Variable tracker : W -> State.
Variable get_account_transaction :
  Address -> Z -> bool -> W -> result (option Transaction) * W.
Variable VM_STATUS_EXECUTED : string.
Variable DEFAULT_WAIT_FOR_TRANSACTION_TIMEOUT_SECS : T.
Variable DEFAULT_WAIT_FOR_TRANSACTION_WAIT_DURATION_SECS : T.

Abbreviation loop := (wait_loop time_time time_sleep tracker get_account_transaction
                    VM_STATUS_EXECUTED DEFAULT_WAIT_FOR_TRANSACTION_WAIT_DURATION_SECS).
Abbreviation wait := (wait_for_transaction2 time_time time_sleep tracker get_account_transaction
                    VM_STATUS_EXECUTED DEFAULT_WAIT_FOR_TRANSACTION_TIMEOUT_SECS
                    DEFAULT_WAIT_FOR_TRANSACTION_WAIT_DURATION_SECS).
Abbreviation now_at := (round_now time_time time_sleep get_account_transaction
                      DEFAULT_WAIT_FOR_TRANSACTION_WAIT_DURATION_SECS).
Abbreviation state_at := (round_state time_time time_sleep tracker get_account_transaction
                        DEFAULT_WAIT_FOR_TRANSACTION_WAIT_DURATION_SECS).
Abbreviation lookup_at := (round_lookup time_time time_sleep get_account_transaction
                         DEFAULT_WAIT_FOR_TRANSACTION_WAIT_DURATION_SECS).

Variables (address : Address) (seq : Z) (expiration_time_secs : Z) (txn_hash : string).

(** The loop from a world in which round [n] is the first to see the
    expiration reached, every round up to it starting before [max_wait]
    and finding no transaction. *)
Lemma wait_loop_expired (wait_duration_secs : option T) (start_time max_wait : T) (n : nat) :
  forall (fuel : nat) (w : W),
  (forall i, (i <= n)%nat ->
     flt (now_at address seq wait_duration_secs i w) max_wait = true /\
     fst (lookup_at address seq wait_duration_secs i w) = Return None) ->
  (forall i, (i < n)%nat -> exists ts,
     timestamp_usecs (state_at address seq wait_duration_secs i w) = PyInt ts /\
     ts < expiration_time_secs * 1000000) ->
  (exists ts,
     timestamp_usecs (state_at address seq wait_duration_secs n w) = PyInt ts /\
     expiration_time_secs * 1000000 <= ts) ->
  (n < fuel)%nat ->
  loop address seq expiration_time_secs txn_hash wait_duration_secs start_time max_wait fuel w
  = Some (Failed (TransactionExpired (state_at address seq wait_duration_secs n w)
                    expiration_time_secs),
          snd (lookup_at address seq wait_duration_secs n w)).
Proof.
  induction n as [|n IH]; intros fuel w Hquiet Hbefore Hthen Hfuel;
    (destruct fuel as [|fuel]; [lia|]).
  - destruct (Hquiet 0%nat) as [Hnow Hlook]; [lia|].
    destruct Hthen as (ts & Hts & Hle).
    unfold round_now, round_state, round_lookup, get_last_known_state in *. simpl in *.
    destruct (time_time w) as [now w1]. simpl in *. rewrite Hnow.
    destruct (get_account_transaction address seq true w1) as [r w2]. simpl in *. subst r.
    unfold get_last_known_state. rewrite Hts. simpl.
    destruct (Z.leb_spec (expiration_time_secs * 1000000) ts); [reflexivity|lia].
  - destruct (Hquiet 0%nat) as [Hnow Hlook]; [lia|].
    destruct (Hbefore 0%nat) as (ts & Hts & Hlt); [lia|].
    specialize (IH fuel (poll_round time_time time_sleep get_account_transaction
                           DEFAULT_WAIT_FOR_TRANSACTION_WAIT_DURATION_SECS
                           address seq wait_duration_secs w)).
    unfold round_now, round_state, round_lookup, get_last_known_state in *.
    cbn [after_rounds]. rewrite <- IH; clear IH.
    + unfold poll_round. simpl in *.
      destruct (time_time w) as [now w1]. simpl in *. rewrite Hnow.
      destruct (get_account_transaction address seq true w1) as [r w2]. simpl in *. subst r.
      unfold get_last_known_state. rewrite Hts. simpl.
      destruct (Z.leb_spec (expiration_time_secs * 1000000) ts); [lia|reflexivity].
    + intros i Hi. apply (Hquiet (Datatypes.S i)). lia.
    + intros i Hi. apply (Hbefore (Datatypes.S i)). lia.
    + exact Hthen.
    + lia.
Qed.

(** [TransactionExpired] is raised only on a snapshot that has reached the
    expiration. *)
Lemma wait_loop_expired_sound (wait_duration_secs : option T) (start_time max_wait : T)
    (fuel : nat) : forall (w w' : W) (state : State) (x : Z),
  loop address seq expiration_time_secs txn_hash wait_duration_secs start_time max_wait fuel w
  = Some (Failed (TransactionExpired state x), w') ->
  x = expiration_time_secs /\
  exists ts, timestamp_usecs state = PyInt ts /\ expiration_time_secs * 1000000 <= ts.
Proof.
  induction fuel as [|fuel IH]; intros w w' state x Hrun; simpl in Hrun; [discriminate|].
  destruct (time_time w) as [now w1].
  destruct (flt now max_wait).
  - destruct (get_account_transaction address seq true w1) as [[[txn|]|e] w2].
    + destruct (negb _); [discriminate|]. destruct (negb _); discriminate.
    + unfold get_last_known_state in Hrun.
      destruct (timestamp_usecs (tracker w1)) as [|ts|] eqn:Hts; simpl in Hrun; try discriminate.
      destruct (Z.leb_spec (expiration_time_secs * 1000000) ts).
      * injection Hrun as <- <- _. split; [reflexivity|]. exists ts. split; assumption.
      * apply IH in Hrun. exact Hrun.
    + discriminate.
  - destruct (time_time w1). discriminate.
Qed.

(** [WaitForTransactionTimeout] is raised only after a loop test that read
    a clock not before [max_wait]. *)
Lemma wait_loop_timeout_sound (wait_duration_secs : option T) (start_time max_wait : T)
    (fuel : nat) : forall (w w' : W) (t0 t1 : T),
  loop address seq expiration_time_secs txn_hash wait_duration_secs start_time max_wait fuel w
  = Some (Failed (WaitForTransactionTimeout t0 t1), w') ->
  exists w1, flt (fst (time_time w1)) max_wait = false /\
             time_time (snd (time_time w1)) = (t1, w').
Proof.
  induction fuel as [|fuel IH]; intros w w' t0 t1 Hrun; simpl in Hrun; [discriminate|].
  destruct (time_time w) as [now w1] eqn:Hclock.
  destruct (flt now max_wait) eqn:Hnow.
  - destruct (get_account_transaction address seq true w1) as [[[txn|]|e] w2].
    + destruct (negb _); [discriminate|]. destruct (negb _); discriminate.
    + destruct (timestamp_usecs (get_last_known_state (tracker w1))) as [|ts|];
        simpl in Hrun; try discriminate.
      destruct (expiration_time_secs * 1000000 <=? ts); [discriminate|].
      apply IH in Hrun. exact Hrun.
    + discriminate.
  - destruct (time_time w1) as [t w2] eqn:Hend. injection Hrun as _ <- <-.
    exists w. rewrite Hclock. simpl. split; assumption.
Qed.
(** C8 (amended): in a run whose lookup finds no transaction in any round
    up to and including round [n], the first round whose snapshot of the
    tracker has [expiration_time_secs * 1_000_000 <= timestamp_usecs], these
    rounds starting within the timeout window, the wait fails with
    [TransactionExpired] in round [n], on that snapshot, and so not with
    [WaitForTransactionTimeout].  In whatever run, [TransactionExpired] is
    raised only on a snapshot that has reached the threshold, and
    [WaitForTransactionTimeout] only after a loop test that read a clock no
    longer within the window. *)
Theorem wait_for_transaction2_expired (timeout_secs wait_duration_secs : option T)
    (n fuel : nat) (w : W) :
  let start_time := fst (time_time w) in
  let max_wait :=
    fadd start_time (py_or timeout_secs DEFAULT_WAIT_FOR_TRANSACTION_TIMEOUT_SECS) in
  let w0 := snd (time_time w) in
  ((forall i, (i <= n)%nat ->
      flt (now_at address seq wait_duration_secs i w0) max_wait = true /\
      fst (lookup_at address seq wait_duration_secs i w0) = Return None) ->
   (forall i, (i < n)%nat -> exists ts,
      timestamp_usecs (state_at address seq wait_duration_secs i w0) = PyInt ts /\
      ts < expiration_time_secs * 1000000) ->
   (exists ts,
      timestamp_usecs (state_at address seq wait_duration_secs n w0) = PyInt ts /\
      expiration_time_secs * 1000000 <= ts) ->
   (n < fuel)%nat ->
   wait address seq expiration_time_secs txn_hash timeout_secs wait_duration_secs fuel w
   = Some (Failed (TransactionExpired (state_at address seq wait_duration_secs n w0)
                     expiration_time_secs),
           snd (lookup_at address seq wait_duration_secs n w0))) /\
  (forall state x w',
     wait address seq expiration_time_secs txn_hash timeout_secs wait_duration_secs fuel w
     = Some (Failed (TransactionExpired state x), w') ->
     x = expiration_time_secs /\
     exists ts, timestamp_usecs state = PyInt ts /\ expiration_time_secs * 1000000 <= ts) /\
  (forall t0 t1 w',
     wait address seq expiration_time_secs txn_hash timeout_secs wait_duration_secs fuel w
     = Some (Failed (WaitForTransactionTimeout t0 t1), w') ->
     exists w1, flt (fst (time_time w1)) max_wait = false /\
                time_time (snd (time_time w1)) = (t1, w')).
Proof.
  intros start_time max_wait w0. subst start_time max_wait w0.
  unfold wait_for_transaction2. destruct (time_time w) as [start_time w0]. simpl.
  split; [|split].
  - intros Hquiet Hbefore Hthen Hfuel. apply wait_loop_expired; assumption.
  - intros state x w' Hrun. eapply wait_loop_expired_sound. exact Hrun.
  - intros t0 t1 w' Hrun. eapply wait_loop_timeout_sound. exact Hrun.
Qed.

Lemma py_or_falsy (zero default0 : T) : ftruthy zero = false -> py_or (Some zero) default0 = default0.
Proof. intros Hz. unfold py_or. rewrite Hz. reflexivity. Qed.

Lemma wait_loop_zero_duration (zero start_time max_wait : T) (fuel : nat) :
  ftruthy zero = false ->
  forall w,
    loop address seq expiration_time_secs txn_hash (Some zero) start_time max_wait fuel w
    = loop address seq expiration_time_secs txn_hash None start_time max_wait fuel w.
Proof.
  intros Hz. induction fuel as [|fuel IH]; intros w; simpl; [reflexivity|].
  destruct (time_time w) as [now w1]. destruct (flt now max_wait); [|reflexivity].
  destruct (get_account_transaction address seq true w1) as [[[txn|]|e] w2]; try reflexivity.
  destruct (timestamp_usecs (get_last_known_state (tracker w1))) as [|ts|];
    simpl; try reflexivity.
  destruct (expiration_time_secs * 1000000 <=? ts); [reflexivity|].
  rewrite Hz. apply IH.
Qed.

(** A false [timeout_secs] or [wait_duration_secs] runs as the absent one
    does. *)
Lemma wait_zero_runs_as_default (zero : T)
    (timeout_secs wait_duration_secs : option T) (fuel : nat) (w : W) :
  ftruthy zero = false ->
  wait address seq expiration_time_secs txn_hash (Some zero) wait_duration_secs fuel w
  = wait address seq expiration_time_secs txn_hash None wait_duration_secs fuel w /\
  wait address seq expiration_time_secs txn_hash timeout_secs (Some zero) fuel w
  = wait address seq expiration_time_secs txn_hash timeout_secs None fuel w /\
  py_or (Some zero) DEFAULT_WAIT_FOR_TRANSACTION_TIMEOUT_SECS
  = DEFAULT_WAIT_FOR_TRANSACTION_TIMEOUT_SECS /\
  py_or (Some zero) DEFAULT_WAIT_FOR_TRANSACTION_WAIT_DURATION_SECS
  = DEFAULT_WAIT_FOR_TRANSACTION_WAIT_DURATION_SECS.
Proof.
  intros Hz. unfold wait_for_transaction2.
  destruct (time_time w) as [start_time w0].
  rewrite !(py_or_falsy _ _ Hz). split; [reflexivity|]. split; [|split; reflexivity].
  apply wait_loop_zero_duration. exact Hz.
Qed.
End WaitProperties.

Example wait_times_out :
  wait_for_transaction2 tick_time tick_sleep tick_tracker tick_lookup "executed" 30%Q (1 # 5)
    "a" 7 9 "h" (Some 2%Q) None 5 0%nat
  = Some (Failed (WaitForTransactionTimeout (inject_Z 0) (inject_Z 2)), 2%nat).
Proof. reflexivity. Qed.

Lemma wait_for_transaction2_expired_witness :
  wait_for_transaction2 tick_time tick_sleep tick_tracker tick_lookup "executed" 30%Q (1 # 5)
    "a" 7 2 "h" (Some 10%Q) None 3 0%nat
  = Some (Failed (TransactionExpired (IntState 2 2 2000000) 2), 2%nat).
Proof.
  refine (proj1 (wait_for_transaction2_expired tick_time tick_sleep tick_tracker tick_lookup
                   "executed" 30%Q (1 # 5) "a" 7 2 "h" (Some 10%Q) None 2 3 0%nat) _ _ _ _).
  - intros i Hi. destruct i as [|[|[|i]]]; [split; reflexivity ..|lia].
  - intros i Hi. destruct i as [|[|i]]; [exists 0; split; [reflexivity|lia]
                                        |exists 1000000; split; [reflexivity|lia]|lia].
  - exists 2000000. split; [reflexivity|lia].
  - lia.
Defined.

(** C8, as stated, fails: a lookup that finds nothing while the tracked
    timestamp is below the threshold and answers in the round that sees the
    threshold reached makes the wait return the transaction; it does not
    fail with [TransactionExpired], although the snapshot of that round
    satisfies [expiration_time_secs * 1_000_000 <= timestamp_usecs]. *)
Lemma found_in_crossing_round :
  fst (tick_lookup_from 2 (mkTransaction "h" "executed") "a" 7 true 0%nat) = Return None /\
  (forall w, Z.of_nat w * 1000000 < 2 * 1000000 ->
     timestamp_usecs (tick_tracker w) = PyInt (Z.of_nat w * 1000000) /\
     fst (tick_lookup_from 2 (mkTransaction "h" "executed") "a" 7 true w) = Return None) /\
  timestamp_usecs (tick_tracker 2) = PyInt 2000000 /\
  2 * 1000000 <= 2000000 /\
  wait_for_transaction2 tick_time tick_sleep tick_tracker
    (tick_lookup_from 2 (mkTransaction "h" "executed")) "executed" 30%Q (1 # 5)
    "a" 7 2 "h" (Some 10%Q) None 5 0%nat
  = Some (Found (mkTransaction "h" "executed"), 2%nat).
Proof.
  split; [reflexivity|]. split.
  - intros w Hw. split; [reflexivity|].
    unfold tick_lookup_from. destruct (Nat.leb_spec 2 w); [lia|reflexivity].
  - split; [reflexivity|]. split; [lia|reflexivity].
Qed.

(** * Further properties *)

(** ** The tracker *)

Lemma update_keeps_set_chain curr c v t :
  chain_id curr <> PyInt (-1) ->
  chain_id (fst (update_last_known_state curr c v t)) = chain_id curr.
Proof.
  intros Hset. apply py_ne_true in Hset. unfold update_last_known_state. rewrite Hset. simpl.
  destruct (py_ne (chain_id curr) c) eqn:Hc; [reflexivity|].
  apply py_ne_false in Hc.
  destruct (py_gt (version curr) v) as [[]|]; try reflexivity.
  destruct (py_gt (timestamp_usecs curr) t) as [[]|]; try reflexivity.
  simpl. congruence.
Qed.

(** X1: once the stored chain id differs from the sentinel -1, no sequence of
    calls, accepted or rejected, changes it. *)
Theorem run_updates_chain_fixed (calls : list (pyval * pyval * pyval)) : forall curr,
  chain_id curr <> PyInt (-1) ->
  chain_id (run_updates curr calls) = chain_id curr.
Proof.
  induction calls as [|[[c v] t] calls IH]; intros curr Hset; [reflexivity|].
  unfold run_updates in *. simpl.
  rewrite IH; rewrite (update_keeps_set_chain curr c v t Hset); [reflexivity|assumption].
Qed.

Lemma run_updates_chain_fixed_witness :
  chain_id (run_updates (IntState 2 10 1000)
              [(PyInt 3, PyInt 11, PyInt 1001); (PyInt 2, PyInt 12, PyInt 1002);
               (PyNone, PyInt 13, PyInt 1003)])
  = PyInt 2.
Proof.
  apply (run_updates_chain_fixed
           [(PyInt 3, PyInt 11, PyInt 1001); (PyInt 2, PyInt 12, PyInt 1002);
            (PyNone, PyInt 13, PyInt 1003)] (IntState 2 10 1000)).
  simpl. discriminate.
Defined.

Lemma string_ltb_irrefl (s : string) : String.ltb s s = false.
Proof.
  unfold String.ltb. pose proof (String.compare_antisym s s) as Hanti.
  destruct (String.compare s s); [reflexivity|discriminate|reflexivity].
Qed.

(** X2: the freshness test is not strict: a call that was accepted can be
    repeated with the same triple and is accepted again, with the stored
    state as the first call left it. *)
Theorem update_last_known_state_repeatable (curr st' : State) (c v t : pyval) :
  update_last_known_state curr c v t = (st', Return tt) ->
  update_last_known_state st' c v t = (st', Return tt).
Proof.
  intros Hfirst. pose proof (update_return_stored _ _ _ _ _ Hfirst) as ->.
  unfold update_last_known_state in *. simpl.
  destruct (_ && _); [discriminate|].
  destruct (py_gt (version curr) v) as [[]|] eqn:Hv; try discriminate.
  destruct (py_gt (timestamp_usecs curr) t) as [[]|] eqn:Ht; try discriminate.
  assert (Hc : py_ne c (PyInt (-1)) && py_ne c c = false).
  { apply andb_false_iff. right. apply py_ne_false. reflexivity. }
  rewrite Hc.
  assert (Hvv : py_gt v v = Some false).
  { destruct (version curr), v; simpl in Hv; try discriminate; simpl.
    - f_equal. rewrite Z.gtb_ltb. apply Z.ltb_irrefl.
    - f_equal. apply string_ltb_irrefl. }
  assert (Htt : py_gt t t = Some false).
  { destruct (timestamp_usecs curr), t; simpl in Ht; try discriminate; simpl.
    - f_equal. rewrite Z.gtb_ltb. apply Z.ltb_irrefl.
    - f_equal. apply string_ltb_irrefl. }
  rewrite Hvv, Htt. reflexivity.
Qed.

Lemma update_last_known_state_repeatable_witness :
  update_last_known_state (IntState 2 10 1000) (PyInt 2) (PyInt 10) (PyInt 1000)
  = (IntState 2 10 1000, Return tt).
Proof.
  apply (update_last_known_state_repeatable initial_state (IntState 2 10 1000)
           (PyInt 2) (PyInt 10) (PyInt 1000)).
  reflexivity.
Defined.

(** ** The per-call pipeline *)

Lemma wrap_errors_never_raw {A} (r : result A) :
  wrap_errors r <> Raise RequestException /\ wrap_errors r <> Raise ParseError.
Proof. destruct r as [a|[]]; simpl; split; discriminate. Qed.

(** X3: [execute_without_retry] never lets a [requests] exception or a
    protobuf [ParseError] out: whatever the strategy, the endpoints and the
    parser do, these two kinds reach the caller only wrapped. *)
Theorem execute_without_retry_wraps (V : Type) (rs : RequestStrategy) (url : string) (env : Env)
    (st : State) (method0 : string) (params0 : list pyval)
    (result_parser : option (pyval -> result V)) (ignore_stale_response : option bool) :
  snd (execute_without_retry rs url env st method0 params0 result_parser ignore_stale_response)
  <> Raise RequestException /\
  snd (execute_without_retry rs url env st method0 params0 result_parser ignore_stale_response)
  <> Raise ParseError.
Proof.
  unfold execute_without_retry.
  destruct (send_request _ _ _ _ _ _) as [st' [json|e]]; cbn [snd]; apply wrap_errors_never_raw.
Qed.



(** X5: the tracker is updated before the envelope is looked at: a response
    that carries an [error] makes the direct call raise [JsonRpcError] with
    that payload, whether or not a [result] is there too, and yet the stored
    state is by then the ledger state of that response. *)
Theorem execute_without_retry_error_response (V : Type) (url : string) (env : Env)
    (st : State) (json : gmap string pyval) (err : pyval) (method0 : string)
    (params0 : list pyval) (result_parser : option (pyval -> result V))
    (ignore_stale_response : option bool) :
  post env 0%nat url (mkRequest "2.0" 1 method0 params0) = Body json ->
  snd (update_last_known_state st (dict_get json "diem_chain_id")
         (dict_get json "diem_ledger_version")
         (dict_get json "diem_ledger_timestampusec")) = Return tt ->
  json !! "error" = Some err ->
  execute_without_retry Direct url env st method0 params0 result_parser ignore_stale_response
  = (mkState (dict_get json "diem_chain_id") (dict_get json "diem_ledger_version")
       (dict_get json "diem_ledger_timestampusec"),
     Raise (JsonRpcError err)).
Proof.
  intros Hpost Hup Herr. unfold execute_without_retry, send_request, _send_http_request.
  rewrite Hpost.
  destruct (update_last_known_state _ _ _ _) as [st' r] eqn:E. simpl in Hup. subst r.
  apply update_return_stored in E. subst st'.
  unfold classify, dict_in, dict_get at 4. rewrite Herr. reflexivity.
Qed.

Lemma execute_without_retry_error_response_witness :
  execute_without_retry (V := pyval) Direct "u"
    (mkEnv (fun _ _ _ => Body {[ "error" := PyStr "bad"; "result" := PyStr "ok";
                                 "diem_chain_id" := PyInt 2;
                                 "diem_ledger_version" := PyInt 11;
                                 "diem_ledger_timestampusec" := PyInt 1001 ]}) 0 true true)
    (IntState 2 10 1000) "get_metadata" [] (Some Return) None
  = (IntState 2 11 1001, Raise (JsonRpcError (PyStr "bad"))).
Proof.
  refine (execute_without_retry_error_response pyval "u"
           (mkEnv (fun _ _ _ => Body {[ "error" := PyStr "bad"; "result" := PyStr "ok";
                                        "diem_chain_id" := PyInt 2;
                                        "diem_ledger_version" := PyInt 11;
                                        "diem_ledger_timestampusec" := PyInt 1001 ]}) 0 true true)
           (IntState 2 10 1000)
           {[ "error" := PyStr "bad"; "result" := PyStr "ok"; "diem_chain_id" := PyInt 2;
              "diem_ledger_version" := PyInt 11; "diem_ledger_timestampusec" := PyInt 1001 ]}
           (PyStr "bad") "get_metadata" [] (Some Return) None _ _ _);
    vm_compute; reflexivity.
Defined.

Lemma direct_return_inv (V : Type) (url : string) (env : Env)
    (st st' : State) (method0 : string) (params0 : list pyval)
    (result_parser : option (pyval -> result V)) (ignore_stale_response : option bool)
    (v : option V) :
  or_False ignore_stale_response = false ->
  execute_without_retry Direct url env st method0 params0 result_parser ignore_stale_response
  = (st', Return v) ->
  exists json,
    post env 0%nat url (mkRequest "2.0" 1 method0 params0) = Body json /\
    st' = mkState (dict_get json "diem_chain_id") (dict_get json "diem_ledger_version")
            (dict_get json "diem_ledger_timestampusec") /\
    json !! "error" = None /\ is_Some (json !! "result").
Proof.
  intros Hflag Hrun. unfold execute_without_retry, send_request, _send_http_request in Hrun.
  rewrite Hflag in Hrun.
  destruct (post env 0%nat url _) as [| | |json]; try discriminate.
  exists json. split; [reflexivity|].
  destruct (update_last_known_state _ _ _ _) as [st1 [[]|e]] eqn:E.
  - apply update_return_stored in E. subst st1.
    injection Hrun as <- Hcls. split; [reflexivity|].
    unfold classify, dict_in in Hcls.
    destruct (json !! "error") as [err|] eqn:Herr.
    + rewrite bool_decide_eq_true_2 in Hcls by eauto. discriminate.
    + split; [reflexivity|].
      rewrite bool_decide_eq_false_2 in Hcls by (intros [? ?]; discriminate).
      destruct (json !! "result") as [r|]; [eauto|].
      rewrite bool_decide_eq_false_2 in Hcls by (intros [? ?]; discriminate). discriminate.
  - destruct e; simpl in Hrun; discriminate.
Qed.

(** X6: a direct call that may not ignore staleness returns a value only
    from a response the tracker accepted: there was a JSON body without
    [error] and with [result], and the stored state is now the ledger state
    that body carried. *)
Theorem execute_without_retry_return_is_fresh (V : Type) (url : string) (env : Env)
    (st st' : State) (method0 : string) (params0 : list pyval)
    (result_parser : option (pyval -> result V)) (ignore_stale_response : option bool)
    (v : option V) :
  or_False ignore_stale_response = false ->
  execute_without_retry Direct url env st method0 params0 result_parser ignore_stale_response
  = (st', Return v) ->
  exists json,
    post env 0%nat url (mkRequest "2.0" 1 method0 params0) = Body json /\
    st' = mkState (dict_get json "diem_chain_id") (dict_get json "diem_ledger_version")
            (dict_get json "diem_ledger_timestampusec") /\
    json !! "error" = None /\ is_Some (json !! "result").
Proof. apply direct_return_inv. Qed.

Lemma execute_without_retry_return_is_fresh_witness :
  exists json,
    post (mkEnv (fun _ _ _ => Body {[ "result" := PyStr "ok"; "diem_chain_id" := PyInt 2;
                                      "diem_ledger_version" := PyInt 10;
                                      "diem_ledger_timestampusec" := PyInt 1000 ]}) 0 true true)
      0%nat "u" (mkRequest "2.0" 1 "get_metadata" []) = Body json /\
    IntState 2 10 1000
    = mkState (dict_get json "diem_chain_id") (dict_get json "diem_ledger_version")
        (dict_get json "diem_ledger_timestampusec") /\
    json !! "error" = None /\ is_Some (json !! "result").
Proof.
  refine (execute_without_retry_return_is_fresh pyval "u"
            (mkEnv (fun _ _ _ => Body {[ "result" := PyStr "ok"; "diem_chain_id" := PyInt 2;
                                         "diem_ledger_version" := PyInt 10;
                                         "diem_ledger_timestampusec" := PyInt 1000 ]}) 0 true true)
            initial_state (IntState 2 10 1000) "get_metadata" [] (Some Return) None
            (Some (PyStr "ok")) _ _);
    vm_compute; reflexivity.
Defined.

Lemma send_monotone st response ignore v0 t0 :
  version st = PyInt v0 -> timestamp_usecs st = PyInt t0 ->
  exists v1 t1,
    version (fst (_send_http_request st response ignore)) = PyInt v1 /\
    timestamp_usecs (fst (_send_http_request st response ignore)) = PyInt t1 /\
    v0 <= v1 /\ t0 <= t1.
Proof.
  intros Hv Ht.
  assert (Hsame : exists v1 t1, version st = PyInt v1 /\ timestamp_usecs st = PyInt t1 /\
                                v0 <= v1 /\ t0 <= t1).
  { exists v0, t0. repeat split; auto; lia. }
  unfold _send_http_request. destruct response as [| | |json]; try exact Hsame.
  pose proof (update_step_monotone st (dict_get json "diem_chain_id")
                (dict_get json "diem_ledger_version")
                (dict_get json "diem_ledger_timestampusec") v0 t0 Hv Ht) as Hstep.
  destruct (update_last_known_state _ _ _ _) as [st1 [[]|e]]; simpl in *; [exact Hstep|].
  destruct e; try exact Hstep. destruct (negb ignore); exact Hstep.
Qed.

Lemma send_request_monotone rs url env st req ignore v0 t0 :
  version st = PyInt v0 -> timestamp_usecs st = PyInt t0 ->
  exists v1 t1,
    version (fst (send_request rs url env st req ignore)) = PyInt v1 /\
    timestamp_usecs (fst (send_request rs url env st req ignore)) = PyInt t1 /\
    v0 <= v1 /\ t0 <= t1.
Proof.
  intros Hv Ht. unfold send_request. destruct rs as [|backups fallback].
  - apply send_monotone; assumption.
  - destruct (random_choice env backups) as [backup_url|e]; simpl.
    + unfold run_concurrently. destruct (primary_locks_first env).
      * destruct (send_monotone st (post env 0%nat url req) ignore v0 t0 Hv Ht)
          as (v1 & t1 & Hv1 & Ht1 & Hle1 & Hle2).
        destruct (_send_http_request st (post env 0%nat url req) ignore) as [st1 p]. simpl in *.
        destruct (send_monotone st1 (post env 1%nat backup_url req) ignore v1 t1 Hv1 Ht1)
          as (v2 & t2 & Hv2 & Ht2 & Hle3 & Hle4).
        destruct (_send_http_request st1 (post env 1%nat backup_url req) ignore) as [st2 b].
        simpl in *. exists v2, t2. destruct fallback; simpl; repeat split; auto; lia.
      * destruct (send_monotone st (post env 1%nat backup_url req) ignore v0 t0 Hv Ht)
          as (v1 & t1 & Hv1 & Ht1 & Hle1 & Hle2).
        destruct (_send_http_request st (post env 1%nat backup_url req) ignore) as [st1 b].
        simpl in *.
        destruct (send_monotone st1 (post env 0%nat url req) ignore v1 t1 Hv1 Ht1)
          as (v2 & t2 & Hv2 & Ht2 & Hle3 & Hle4).
        destruct (_send_http_request st1 (post env 0%nat url req) ignore) as [st2 p].
        simpl in *. exists v2, t2. destruct fallback; simpl; repeat split; auto; lia.
    + apply send_monotone; assumption.
Qed.

(** X7: no call lowers the tracker, as long as the ledger-state fields of
    the responses are JSON integers, strings or null, the values of
    [pyval] (a JSON float or boolean is outside this model): whatever the
    strategy, such answers of the endpoints, the order of the two concurrent
    calls and the outcome, the stored version and timestamp_usecs after
    [execute_without_retry] are ints not below the ints stored before. *)
Theorem execute_without_retry_monotone (V : Type) (rs : RequestStrategy) (url : string)
    (env : Env) (st : State) (method0 : string) (params0 : list pyval)
    (result_parser : option (pyval -> result V)) (ignore_stale_response : option bool)
    (v0 t0 : Z) :
  version st = PyInt v0 -> timestamp_usecs st = PyInt t0 ->
  exists v1 t1,
    version (fst (execute_without_retry rs url env st method0 params0 result_parser
                    ignore_stale_response)) = PyInt v1 /\
    timestamp_usecs (fst (execute_without_retry rs url env st method0 params0 result_parser
                            ignore_stale_response)) = PyInt t1 /\
    v0 <= v1 /\ t0 <= t1.
Proof.
  intros Hv Ht. unfold execute_without_retry.
  pose proof (send_request_monotone rs url env st (mkRequest "2.0" 1 method0 params0)
                (or_False ignore_stale_response) v0 t0 Hv Ht) as Hsend.
  destruct (send_request _ _ _ _ _ _) as [st' [json|e]]; exact Hsend.
Qed.

Lemma execute_without_retry_monotone_witness :
  exists v1 t1,
    version (fst (execute_without_retry (V := pyval) (RequestWithBackups ["b"] false) "p"
                    (mkEnv (fun k _ _ =>
                              Body {[ "result" := PyStr "ok"; "diem_chain_id" := PyInt 2;
                                      "diem_ledger_version" := PyInt (10 + Z.of_nat k);
                                      "diem_ledger_timestampusec" := PyInt 1000 ]})
                       0 false true)
                    (IntState 2 10 1000) "get_metadata" [] (Some Return) None)) = PyInt v1 /\
    timestamp_usecs (fst (execute_without_retry (V := pyval) (RequestWithBackups ["b"] false) "p"
                    (mkEnv (fun k _ _ =>
                              Body {[ "result" := PyStr "ok"; "diem_chain_id" := PyInt 2;
                                      "diem_ledger_version" := PyInt (10 + Z.of_nat k);
                                      "diem_ledger_timestampusec" := PyInt 1000 ]})
                       0 false true)
                    (IntState 2 10 1000) "get_metadata" [] (Some Return) None)) = PyInt t1 /\
    10 <= v1 /\ 1000 <= t1.
Proof.
  apply (execute_without_retry_monotone pyval (RequestWithBackups ["b"] false) "p"
           (mkEnv (fun k _ _ =>
                     Body {[ "result" := PyStr "ok"; "diem_chain_id" := PyInt 2;
                             "diem_ledger_version" := PyInt (10 + Z.of_nat k);
                             "diem_ledger_timestampusec" := PyInt 1000 ]})
              0 false true)
           (IntState 2 10 1000) "get_metadata" [] (Some Return) None 10 1000);
    reflexivity.
Defined.

(** ** submit and the strategies *)

Lemma send_ignoring_never_stale st response :
  snd (_send_http_request st response true) <> Raise StaleResponseError.
Proof.
  unfold _send_http_request. destruct response as [| | |json]; simpl; try discriminate.
  destruct (update_last_known_state _ _ _ _) as [st1 [[]|e]]; simpl; [discriminate|].
  destruct e; simpl; discriminate.
Qed.

Lemma send_request_ignoring_never_stale rs url env st req :
  snd (send_request rs url env st req true) <> Raise StaleResponseError.
Proof.
  unfold send_request. destruct rs as [|backups fallback].
  - apply send_ignoring_never_stale.
  - destruct (random_choice env backups) as [backup_url|e] eqn:Hc.
    + unfold run_concurrently. destruct (primary_locks_first env).
      * pose proof (send_ignoring_never_stale st (post env 0%nat url req)) as Hp.
        destruct (_send_http_request st (post env 0%nat url req) true) as [st1 p].
        pose proof (send_ignoring_never_stale st1 (post env 1%nat backup_url req)) as Hb.
        destruct (_send_http_request st1 (post env 1%nat backup_url req) true) as [st2 b].
        simpl in *. destruct fallback; simpl.
        -- destruct p; [discriminate|exact Hb].
        -- destruct (primary_completes_first env); [destruct p|destruct b];
             first [discriminate|assumption].
      * pose proof (send_ignoring_never_stale st (post env 1%nat backup_url req)) as Hb.
        destruct (_send_http_request st (post env 1%nat backup_url req) true) as [st1 b].
        pose proof (send_ignoring_never_stale st1 (post env 0%nat url req)) as Hp.
        destruct (_send_http_request st1 (post env 0%nat url req) true) as [st2 p].
        simpl in *. destruct fallback; simpl.
        -- destruct p; [discriminate|exact Hb].
        -- destruct (primary_completes_first env); [destruct p|destruct b];
             first [discriminate|assumption].
    + unfold random_choice in Hc. destruct (_ !! _); [discriminate|].
      injection Hc as <-. simpl. discriminate.
Qed.

(** X8: [submit] never fails with [StaleResponseError], whatever the
    strategy and whatever the endpoints answer; nor does a [requests]
    exception or a [ParseError] leave it unwrapped. *)
Theorem submit_never_stale (SignedTransaction : Type)
    (bcs_serialize_hex : SignedTransaction -> string) (rs : RequestStrategy) (url : string)
    (env : Env) (st : State) (txn : SignedTransaction + string) :
  snd (submit bcs_serialize_hex rs url env st txn) <> Raise StaleResponseError /\
  snd (submit bcs_serialize_hex rs url env st txn) <> Raise RequestException /\
  snd (submit bcs_serialize_hex rs url env st txn) <> Raise ParseError.
Proof.
  unfold submit, execute_without_retry. simpl or_False.
  match goal with |- context [send_request rs url env st ?r true] =>
    pose proof (send_request_ignoring_never_stale rs url env st r) as Hs;
    destruct (send_request rs url env st r true) as [st' [json|e]] end; simpl in *.
  - unfold classify. destruct (dict_in "error" json); simpl; [repeat split; discriminate|].
    destruct (dict_in "result" json); simpl; repeat split; discriminate.
  - destruct e; simpl; repeat split; try discriminate. exfalso. apply Hs. reflexivity.
Qed.

(** X9: a submission answered by a server that lags behind is still a
    submission: on a response with a [result] that the tracker finds stale,
    the direct [submit] returns and leaves the stored state as it was. *)
Theorem submit_stale_response (SignedTransaction : Type)
    (bcs_serialize_hex : SignedTransaction -> string) (url : string) (env : Env) (st : State)
    (hex : string) (json : gmap string pyval) :
  post env 0%nat url (mkRequest "2.0" 1 "submit" [PyStr hex]) = Body json ->
  snd (update_last_known_state st (dict_get json "diem_chain_id")
         (dict_get json "diem_ledger_version")
         (dict_get json "diem_ledger_timestampusec")) = Raise StaleResponseError ->
  json !! "error" = None -> is_Some (json !! "result") ->
  submit bcs_serialize_hex Direct url env st (inr hex) = (st, Return tt).
Proof.
  intros Hpost Hstale Herr Hres. unfold submit, execute_without_retry, send_request.
  rewrite Hpost. simpl or_False. rewrite (send_stale _ _ _ Hstale).
  unfold classify, dict_in. rewrite Herr.
  rewrite bool_decide_eq_false_2 by (intros [? ?]; discriminate).
  rewrite bool_decide_eq_true_2 by assumption. reflexivity.
Qed.

Lemma submit_stale_response_witness :
  submit (fun signed : unit => "00") Direct "u"
    (mkEnv (fun _ _ _ => Body {[ "result" := PyNone; "diem_chain_id" := PyInt 2;
                                 "diem_ledger_version" := PyInt 9;
                                 "diem_ledger_timestampusec" := PyInt 1000 ]}) 0 true true)
    (IntState 2 10 1000) (inr "a1b2")
  = (IntState 2 10 1000, Return tt).
Proof.
  refine (submit_stale_response unit (fun signed : unit => "00") "u"
            (mkEnv (fun _ _ _ => Body {[ "result" := PyNone; "diem_chain_id" := PyInt 2;
                                         "diem_ledger_version" := PyInt 9;
                                         "diem_ledger_timestampusec" := PyInt 1000 ]}) 0 true true)
            (IntState 2 10 1000) "a1b2"
            {[ "result" := PyNone; "diem_chain_id" := PyInt 2;
               "diem_ledger_version" := PyInt 9; "diem_ledger_timestampusec" := PyInt 1000 ]}
            _ _ _ _);
    vm_compute; eauto.
Defined.

(** X10: with a backup drawn, in either mode and whatever the order of
    completion, [send_request] ends as one of the two calls ended, and it
    raises exactly when both calls raised. *)
Theorem send_request_with_backups_outcome (env : Env) (st st' : State) (backups : list string)
    (fallback : bool) (url backup_url : string) (req : request) (ignore_stale_response : bool)
    (primary backup : result (gmap string pyval)) :
  random_choice env backups = Return backup_url ->
  run_concurrently st (primary_locks_first env)
    (post env 0%nat url req) (post env 1%nat backup_url req) ignore_stale_response
  = (st', primary, backup) ->
  exists r,
    send_request (RequestWithBackups backups fallback) url env st req ignore_stale_response
    = (st', r) /\
    (r = primary \/ r = backup) /\
    ((exists e, r = Raise e) <-> (exists e1 e2, primary = Raise e1 /\ backup = Raise e2)).
Proof.
  intros Hchoice Hrun. unfold send_request. rewrite Hchoice, Hrun.
  destruct fallback; [|destruct (primary_completes_first env)];
    destruct primary as [p|e1], backup as [b|e2]; simpl;
    eexists; (split; [reflexivity|]); (split; [auto|]);
    split; try (intros [e He]; discriminate);
    try (intros (e1' & e2' & H1 & H2); discriminate); eauto.
Qed.

Lemma send_request_with_backups_outcome_witness :
  exists r,
    send_request (RequestWithBackups ["b1"; "b2"] false) "p"
      (mkEnv (fun k _ _ => match k with O => PostRaises | _ => NotJson end) 3 true false)
      initial_state (mkRequest "2.0" 1 "get_metadata" []) false
    = (initial_state, r) /\
    (r = Raise RequestException \/ r = Raise InvalidServerResponse) /\
    ((exists e, r = Raise e) <->
     (exists e1 e2, @Raise (gmap string pyval) RequestException = Raise e1 /\
                    @Raise (gmap string pyval) InvalidServerResponse = Raise e2)).
Proof.
  refine (send_request_with_backups_outcome
            (mkEnv (fun k _ _ => match k with O => PostRaises | _ => NotJson end) 3 true false)
            initial_state initial_state ["b1"; "b2"] false "p" "b2"
            (mkRequest "2.0" 1 "get_metadata" []) false
            (Raise RequestException) (Raise InvalidServerResponse) _ _);
    reflexivity.
Defined.

(** X11: in first-success mode the call that completes first decides when
    it succeeds, so a backup that completes first and succeeds gives the
    returned value whatever the primary does; and when both calls fail the
    error raised is that of the call that completed second. *)
Theorem first_success_result (env : Env) (st st' : State) (backups : list string)
    (url backup_url : string) (req : request) (ignore_stale_response : bool)
    (primary backup : result (gmap string pyval)) :
  random_choice env backups = Return backup_url ->
  run_concurrently st (primary_locks_first env)
    (post env 0%nat url req) (post env 1%nat backup_url req) ignore_stale_response
  = (st', primary, backup) ->
  (primary_completes_first env = false -> forall json, backup = Return json ->
     send_request (RequestWithBackups backups false) url env st req ignore_stale_response
     = (st', Return json)) /\
  (primary_completes_first env = true -> forall json, primary = Return json ->
     send_request (RequestWithBackups backups false) url env st req ignore_stale_response
     = (st', Return json)) /\
  (forall e1 e2, primary = Raise e1 -> backup = Raise e2 ->
     send_request (RequestWithBackups backups false) url env st req ignore_stale_response
     = (st', Raise (if primary_completes_first env then e2 else e1))).
Proof.
  intros Hchoice Hrun. unfold send_request, _first_success. rewrite Hchoice, Hrun.
  split; [|split].
  - intros -> json ->. reflexivity.
  - intros -> json ->. reflexivity.
  - intros e1 e2 -> ->. destruct (primary_completes_first env); reflexivity.
Qed.

Lemma first_success_result_witness :
  send_request (RequestWithBackups ["b1"; "b2"] false) "p"
    (mkEnv (fun k _ _ => match k with O => PostRaises | _ => NotJson end) 3 true false)
    initial_state (mkRequest "2.0" 1 "get_metadata" []) false
  = (initial_state, Raise RequestException).
Proof.
  refine (proj2 (proj2 (first_success_result
            (mkEnv (fun k _ _ => match k with O => PostRaises | _ => NotJson end) 3 true false)
            initial_state initial_state ["b1"; "b2"] "p" "b2"
            (mkRequest "2.0" 1 "get_metadata" []) false
            (Raise RequestException) (Raise InvalidServerResponse) _ _))
            RequestException InvalidServerResponse _ _);
    reflexivity.
Defined.

(** ** The retry policy *)

Section RetryFurther.
Context {T : Type} `{PyFloat T} {S V : Type}.
Variable self : Retry T.
Variable fn : S -> result V * S.

Lemma execute_loop_bounded (fuel : nat) : forall tries s r s' tr,
  execute_loop self fn fuel tries s = Some (r, s', tr) ->
  (invocations tr <= Z.to_nat (max_retries self - tries))%nat /\
  length (sleeps tr) = (invocations tr - 1)%nat /\
  (tries < max_retries self -> (1 <= invocations tr)%nat).
Proof.
  induction fuel as [|fuel IH]; intros tries s r s' tr Hrun; simpl in Hrun; [discriminate|].
  destruct (Z.ltb_spec tries (max_retries self)).
  - destruct (fn s) as [[v|e] s1].
    + injection Hrun as <- <- <-. simpl. repeat split; lia.
    + destruct (exception self e).
      * destruct (Z.ltb_spec (tries + 1) (max_retries self)).
        -- destruct (execute_loop self fn fuel (tries + 1) s1) as [[[r1 s2] tr1]|] eqn:E;
             [|discriminate].
           injection Hrun as <- <- <-. apply IH in E. destruct E as (Hb & Hs & Hp).
           specialize (Hp ltac:(lia)). simpl. repeat split; lia.
        -- injection Hrun as <- <- <-. simpl. repeat split; lia.
      * injection Hrun as <- <- <-. simpl. repeat split; lia.
  - injection Hrun as <- <- <-. simpl. repeat split; lia.
Qed.

(** The events of the loop are those of some number of failed attempts,
    each with its backoff sleep, and of a last attempt. *)
Lemma execute_loop_shape (fuel : nat) : forall tries s r s' tr,
  execute_loop self fn fuel tries s = Some (r, s', tr) ->
  (tr = [] /\ max_retries self <= tries) \/
  exists k, tries + Z.of_nat k < max_retries self /\ tr = attempts_trace self tries k.
Proof.
  induction fuel as [|fuel IH]; intros tries s r s' tr Hrun; simpl in Hrun; [discriminate|].
  destruct (Z.ltb_spec tries (max_retries self)).
  - right. destruct (fn s) as [[v|e] s1].
    + injection Hrun as <- <- <-. exists 0%nat. split; [lia|reflexivity].
    + destruct (exception self e).
      * destruct (Z.ltb_spec (tries + 1) (max_retries self)).
        -- destruct (execute_loop self fn fuel (tries + 1) s1) as [[[r1 s2] tr1]|] eqn:E;
             [|discriminate].
           injection Hrun as <- <- <-. apply IH in E.
           destruct E as [[_ Hge]|(k & Hk & ->)]; [lia|].
           exists (Datatypes.S k). split; [lia|reflexivity].
        -- injection Hrun as <- <- <-. exists 0%nat. split; [lia|reflexivity].
      * injection Hrun as <- <- <-. exists 0%nat. split; [lia|reflexivity].
  - left. injection Hrun as <- <- <-. split; [reflexivity|lia].
Qed.

(** X13: whatever the operation does, [execute] ends, and what it did is
    nothing at all (when [max_retries <= 0]) or, for some [k] with
    [k + 1 <= max_retries], exactly this: [k] attempts, each followed by its
    sleep of [delay_secs * 1], ..., [delay_secs * k], and then a last
    attempt.  So it invokes the operation at most [max_retries] times, sleeps
    only between two invocations and never after the last. *)
Theorem execute_bounded (s : S) :
  exists r s' tr,
    execute self fn s = Some (r, s', tr) /\
    ((tr = [] /\ max_retries self <= 0) \/
     exists k, Z.of_nat k < max_retries self /\ tr = attempts_trace self 0 k) /\
    (invocations tr <= Z.to_nat (max_retries self))%nat /\
    length (sleeps tr) = (invocations tr - 1)%nat /\
    (forall d, last tr <> Some (Sleep d)).
Proof.
  destruct (execute_total self fn s) as [[[r s'] tr] Hrun].
  exists r, s', tr. split; [exact Hrun|].
  pose proof (execute_loop_shape _ _ _ _ _ _ Hrun) as Hshape.
  apply execute_loop_bounded in Hrun. rewrite Z.sub_0_r in Hrun.
  destruct Hrun as (Hb & Hs & _).
  split; [|split; [exact Hb|split; [exact Hs|]]].
  - destruct Hshape as [[-> Hle]|(k & Hk & ->)]; [left; split; [reflexivity|lia]|right].
    exists k. split; [lia|reflexivity].
  - intros d. destruct Hshape as [[-> _]|(k & _ & ->)]; [discriminate|].
    clear. generalize 0. induction k as [|k IH]; intros tries; [discriminate|].
    cbn [attempts_trace]. specialize (IH (tries + 1)).
    destruct (attempts_trace self (tries + 1) k) as [|ev tr'] eqn:E.
    + destruct k; discriminate.
    + rewrite !last_cons. rewrite last_cons in IH.
      destruct (last tr'); [exact IH|]. exact IH.
Qed.

(** X14: a policy with [max_retries <= 0] never invokes the operation: the
    loop is not entered and [execute] returns [None], with no error. *)
Theorem execute_no_attempts (s : S) :
  max_retries self <= 0 ->
  execute self fn s = Some (Return None, s, []).
Proof.
  intros Hmax. unfold execute. simpl.
  destruct (Z.ltb_spec 0 (max_retries self)); [lia|reflexivity].
Qed.

Lemma execute_loop_raise (fuel : nat) : forall tries s e s' tr,
  execute_loop self fn fuel tries s = Some (Raise e, s', tr) ->
  exists s_last, fn s_last = (Raise e, s') /\
    (exception self e = false \/
     (exception self e = true /\ Z.of_nat (invocations tr) = max_retries self - tries)).
Proof.
  induction fuel as [|fuel IH]; intros tries s e s' tr Hrun; simpl in Hrun; [discriminate|].
  destruct (Z.ltb_spec tries (max_retries self)); [|discriminate].
  destruct (fn s) as [[v|e0] s1] eqn:Hfn; [discriminate|].
  destruct (exception self e0) eqn:Hexc.
  - destruct (Z.ltb_spec (tries + 1) (max_retries self)).
    + destruct (execute_loop self fn fuel (tries + 1) s1) as [[[r1 s2] tr1]|] eqn:E;
        [|discriminate].
      injection Hrun as -> <- <-. apply IH in E. destruct E as (s_last & Hlast & Hcase).
      exists s_last. split; [exact Hlast|].
      destruct Hcase as [Hno|[Hyes Hcount]]; [left; exact Hno|right].
      split; [exact Hyes|]. simpl. lia.
    + injection Hrun as <- <- <-. exists s. split; [exact Hfn|]. right.
      split; [exact Hexc|]. simpl. lia.
  - injection Hrun as <- <- <-. exists s. split; [exact Hfn|]. left. exact Hexc.
Qed.

(** X15: an error that [execute] raises is one the operation itself raised
    in its last invocation, and it is either not of the retryable kind or
    the error of attempt number [max_retries]: the policy adds no error of
    its own and gives up on a retryable error only when the attempts are
    used up. *)
Theorem execute_raise (s s' : S) (e : error) (tr : list (event T)) :
  execute self fn s = Some (Raise e, s', tr) ->
  exists s_last, fn s_last = (Raise e, s') /\
    (exception self e = false \/
     (exception self e = true /\ Z.of_nat (invocations tr) = max_retries self)).
Proof.
  intros Hrun. apply execute_loop_raise in Hrun. rewrite Z.sub_0_r in Hrun. exact Hrun.
Qed.
End RetryFurther.

Lemma execute_no_attempts_witness :
  execute (mkRetry 0 (1 # 5) is_StaleResponseError) (flaky 0) 7%nat = Some (Return None, 7%nat, []).
Proof.
  apply (execute_no_attempts (mkRetry 0 (1 # 5) is_StaleResponseError) (flaky 0) 7%nat).
  simpl. lia.
Defined.

Lemma execute_raise_witness :
  exists s_last, always_stale s_last = (Raise StaleResponseError, 3%nat) /\
    (exception sample_retry StaleResponseError = false \/
     (exception sample_retry StaleResponseError = true /\
      Z.of_nat (invocations [Invoke; Sleep (fmul_int (1 # 5) 1); Invoke;
                             Sleep (fmul_int (1 # 5) 2); @Invoke Q])
      = max_retries sample_retry)).
Proof.
  apply (execute_raise sample_retry always_stale 0%nat 3%nat StaleResponseError
           [Invoke; Sleep (fmul_int (1 # 5) 1); Invoke; Sleep (fmul_int (1 # 5) 2); Invoke]).
  reflexivity.
Defined.

(** ** The retrying entry point *)

Section RetryReturn.
Context {T : Type} `{PyFloat T} {S V : Type}.
Variable self : Retry T.
Variable fn : S -> result V * S.

(** A value [execute] returns is the value of the last invocation. *)
Lemma execute_loop_return (fuel : nat) : forall tries s v s' tr,
  execute_loop self fn fuel tries s = Some (Return (Some v), s', tr) ->
  exists s_last, fn s_last = (Return v, s').
Proof.
  induction fuel as [|fuel IH]; intros tries s v s' tr Hrun; simpl in Hrun; [discriminate|].
  destruct (tries <? max_retries self); [|discriminate].
  destruct (fn s) as [[v0|e] s1] eqn:Hfn.
  - injection Hrun as <- <- _. exists s. exact Hfn.
  - destruct (exception self e); [|discriminate].
    destruct (tries + 1 <? max_retries self); [|discriminate].
    destruct (execute_loop self fn fuel (tries + 1) s1) as [[[r1 s2] tr1]|] eqn:E; [|discriminate].
    injection Hrun as -> <- _. eapply IH. exact E.
Qed.

(** The loop does not fall through once it is entered. *)
Lemma execute_loop_no_fall_through (fuel : nat) : forall tries s s' tr,
  tries < max_retries self ->
  execute_loop self fn fuel tries s <> Some (Return None, s', tr).
Proof.
  induction fuel as [|fuel IH]; intros tries s s' tr Htries; simpl; [discriminate|].
  destruct (Z.ltb_spec tries (max_retries self)); [|lia].
  destruct (fn s) as [[v0|e] s1]; [discriminate|].
  destruct (exception self e); [|discriminate].
  destruct (Z.ltb_spec (tries + 1) (max_retries self)); [|discriminate].
  pose proof (IH (tries + 1) s1) as IH1.
  destruct (execute_loop self fn fuel (tries + 1) s1) as [[[r1 s2] tr1]|]; [|discriminate].
  intros Heq. injection Heq as -> <- <-. apply (IH1 s2 tr1); [assumption|reflexivity].
Qed.
End RetryReturn.

(** The classification of an envelope with a result and without an error. *)
Lemma classify_result (V : Type) (json : gmap string pyval) (parse : pyval -> result V)
    (r : pyval) :
  json !! "error" = None -> json !! "result" = Some r ->
  classify json (Some parse)
  = match parse r with
    | Return v => Return (Some v)
    | Raise e => Raise e
    end.
Proof.
  intros Herr Hres. unfold classify, dict_in, dict_get. rewrite Herr, Hres.
  rewrite bool_decide_eq_false_2 by (intros [? ?]; discriminate).
  rewrite bool_decide_eq_true_2 by eauto. reflexivity.
Qed.

Section ClientProperties.
Context {T : Type} `{PyFloat T}.
Variable self : Client T.
Variable net : nat -> Env.

(** One attempt of a directly sending client on a response the tracker
    accepts. *)
Lemma attempt_direct_fresh (V : Type) (method0 : string) (params0 : list pyval)
    (result_parser : option (pyval -> result V)) (ignore_stale_response : option bool)
    (s : Session T) (json : gmap string pyval) (st' : State) :
  _rs self = Direct ->
  post (net (sent s)) 0%nat (_url self) (mkRequest "2.0" 1 method0 params0) = Body json ->
  update_last_known_state (stored s) (dict_get json "diem_chain_id")
    (dict_get json "diem_ledger_version") (dict_get json "diem_ledger_timestampusec")
  = (st', Return tt) ->
  attempt self net method0 params0 result_parser ignore_stale_response s
  = (wrap_errors (classify json result_parser), mkSession st' (Datatypes.S (sent s)) (slept s)).
Proof.
  intros Hrs Hpost Hup.
  unfold attempt, execute_without_retry, send_request, _send_http_request.
  rewrite Hrs, Hpost, Hup. reflexivity.
Qed.

(** X16: through the retries too, a read returns only what a fresh response
    gave: when [Client.execute] of a directly sending client with
    [max_retries >= 1] returns, the last request it sent was answered by a
    JSON body without [error] and with [result] that the tracker accepted,
    and the stored state is the ledger state of that body. *)
Theorem Client_execute_return_is_fresh (V : Type) (method0 : string) (params0 : list pyval)
    (result_parser : option (pyval -> result V)) (ignore_stale_response : option bool)
    (s s' : Session T) (v : option V) :
  _rs self = Direct ->
  1 <= max_retries (_retry self) ->
  or_False ignore_stale_response = false ->
  Client_execute self net method0 params0 result_parser ignore_stale_response s
  = (Return v, s') ->
  exists k json,
    sent s' = Datatypes.S k /\
    post (net k) 0%nat (_url self) (mkRequest "2.0" 1 method0 params0) = Body json /\
    stored s' = mkState (dict_get json "diem_chain_id") (dict_get json "diem_ledger_version")
                  (dict_get json "diem_ledger_timestampusec") /\
    json !! "error" = None /\ is_Some (json !! "result").
Proof.
  intros Hrs Hmax Hflag Hrun. unfold Client_execute in Hrun.
  destruct (execute _ _ s) as [[[[[v0|]|e] s1] tr]|] eqn:E.
  - injection Hrun as <- <-. simpl.
    apply execute_loop_return in E. destruct E as (s_last & Hlast).
    unfold attempt in Hlast. rewrite Hrs in Hlast.
    destruct (execute_without_retry Direct _ _ _ _ _ _ _) as [st' r] eqn:Hcall.
    injection Hlast as -> <-. simpl.
    destruct (direct_return_inv _ _ _ _ _ _ _ _ _ _ Hflag Hcall) as (json & Hpost & Hst & Herr & Hres).
    exists (sent s_last), json. repeat split; assumption.
  - exfalso. revert E. apply execute_loop_no_fall_through. lia.
  - discriminate.
  - exfalso. destruct (execute_total (_retry self)
                         (attempt self net method0 params0 result_parser ignore_stale_response) s)
      as [r Hr]. congruence.
Qed.

(** [get_metadata(0)] does not ask for version 0: zero is a false value, so
    the request carries no parameter and the call is the call without a
    version. *)
Lemma get_metadata_version_zero (Metadata : Type) (parse_metadata : pyval -> result Metadata)
    (s : Session T) :
  get_metadata self net parse_metadata (Some 0) s = get_metadata self net parse_metadata None s.
Proof. reflexivity. Qed.

(** X17: an account the server does not know comes back as a false
    [result] (null): [get_account] of a directly sending client with
    [max_retries >= 1] then returns [None] after one request, without
    calling the parser, and [must_get_account] over it raises
    [AccountNotFoundError] for that address. *)
Theorem must_get_account_not_found (parse_account : pyval -> result Account)
    (account_address : string) (s : Session T) (json : gmap string pyval) (r : pyval)
    (st' : State) :
  _rs self = Direct ->
  1 <= max_retries (_retry self) ->
  post (net (sent s)) 0%nat (_url self) (mkRequest "2.0" 1 "get_account" [PyStr account_address])
  = Body json ->
  update_last_known_state (stored s) (dict_get json "diem_chain_id")
    (dict_get json "diem_ledger_version") (dict_get json "diem_ledger_timestampusec")
  = (st', Return tt) ->
  json !! "error" = None -> json !! "result" = Some r -> py_truthy r = false ->
  get_account self net parse_account account_address s
  = (Return None, mkSession st' (Datatypes.S (sent s)) (slept s)) /\
  must_get_account (get_account self net parse_account) account_address s
  = (Fail (AccountNotFoundError account_address),
     mkSession st' (Datatypes.S (sent s)) (slept s)).
Proof.
  intros Hrs Hmax Hpost Hup Herr Hres Hfalse.
  assert (Hget : get_account self net parse_account account_address s
                 = (Return None, mkSession st' (Datatypes.S (sent s)) (slept s))).
  { unfold get_account, Client_execute, execute. cbn [execute_loop].
    destruct (Z.ltb_spec 0 (max_retries (_retry self))); [|lia].
    rewrite (attempt_direct_fresh _ _ _ _ _ _ _ _ Hrs Hpost Hup).
    rewrite (classify_result _ _ _ _ Herr Hres).
    unfold _parse_obj. rewrite Hfalse. simpl. rewrite app_nil_r. reflexivity. }
  split; [exact Hget|]. unfold must_get_account. rewrite Hget. reflexivity.
Qed.
End ClientProperties.

Lemma Client_execute_return_is_fresh_witness :
  exists k json,
    sent (mkSession (T := Q) (IntState 2 10 1000) 1 []) = Datatypes.S k /\
    post (mkEnv (fun _ _ _ => Body {[ "result" := PyStr "ok"; "diem_chain_id" := PyInt 2;
                                      "diem_ledger_version" := PyInt 10;
                                      "diem_ledger_timestampusec" := PyInt 1000 ]}) 0 true true)
      0%nat (_url sample_client) (mkRequest "2.0" 1 "get_metadata" []) = Body json /\
    stored (mkSession (T := Q) (IntState 2 10 1000) 1 [])
    = mkState (dict_get json "diem_chain_id") (dict_get json "diem_ledger_version")
        (dict_get json "diem_ledger_timestampusec") /\
    json !! "error" = None /\ is_Some (json !! "result").
Proof.
  refine (Client_execute_return_is_fresh sample_client
            (fun _ => mkEnv (fun _ _ _ => Body {[ "result" := PyStr "ok";
                                                  "diem_chain_id" := PyInt 2;
                                                  "diem_ledger_version" := PyInt 10;
                                                  "diem_ledger_timestampusec" := PyInt 1000 ]})
                        0 true true)
            pyval "get_metadata" [] (Some Return) None
            (mkSession initial_state 0 []) (mkSession (IntState 2 10 1000) 1 [])
            (Some (PyStr "ok")) _ _ _ _).
  - reflexivity.
  - vm_compute. discriminate.
  - reflexivity.
  - vm_compute. reflexivity.
Defined.

Lemma must_get_account_not_found_witness :
  must_get_account
    (get_account sample_client
       (fun _ => mkEnv (fun _ _ _ => Body {[ "result" := PyNone; "diem_chain_id" := PyInt 2;
                                             "diem_ledger_version" := PyInt 10;
                                             "diem_ledger_timestampusec" := PyInt 1000 ]})
                   0 true true)
       (fun _ => Raise ParseError))
    "dd" (mkSession initial_state 0 [])
  = (Fail (AccountNotFoundError "dd"), mkSession (IntState 2 10 1000) 1 []).
Proof.
  refine (proj2 (must_get_account_not_found sample_client
            (fun _ => mkEnv (fun _ _ _ => Body {[ "result" := PyNone; "diem_chain_id" := PyInt 2;
                                                  "diem_ledger_version" := PyInt 10;
                                                  "diem_ledger_timestampusec" := PyInt 1000 ]})
                        0 true true)
            (fun _ => Raise ParseError) "dd" (mkSession initial_state 0 [])
            {[ "result" := PyNone; "diem_chain_id" := PyInt 2;
               "diem_ledger_version" := PyInt 10; "diem_ledger_timestampusec" := PyInt 1000 ]}
            PyNone (IntState 2 10 1000) _ _ _ _ _ _ _)).
  - reflexivity.
  - vm_compute. discriminate.
  - reflexivity.
  - vm_compute. reflexivity.
  - vm_compute. reflexivity.
  - vm_compute. reflexivity.
  - reflexivity.
Defined.

(** ** Account lookups *)

Section AccountProperties.
Context {W : Type}.
Variable get_account : string -> W -> result (option Account) * W.
Variable ACCOUNT_ROLE_PARENT_VASP : string.
Variable ACCOUNT_ROLE_CHILD_VASP : string.
Context {PublicKey : Type}.
Variable public_key_from_hex : string -> option PublicKey.

(** X18: whatever chain of child accounts it follows, an account that
    [get_parent_vasp_account] returns is one that [get_account] gave in the
    last lookup and whose role type is that of a parent VASP. *)
Theorem get_parent_vasp_account_is_parent (fuel : nat) :
  forall (vasp_account_address : string) (w w' : W) (account : Account),
  get_parent_vasp_account get_account ACCOUNT_ROLE_PARENT_VASP ACCOUNT_ROLE_CHILD_VASP
    fuel vasp_account_address w = Some (Ok account, w') ->
  role_type account = ACCOUNT_ROLE_PARENT_VASP /\
  exists a1 w1, get_account a1 w1 = (Return (Some account), w').
Proof.
  induction fuel as [|fuel IH]; intros addr w w' account Hrun; simpl in Hrun; [discriminate|].
  unfold must_get_account in Hrun.
  destruct (get_account addr w) as [[[found|]|e] w1] eqn:Hget; try discriminate.
  destruct (String.eqb_spec (role_type found) ACCOUNT_ROLE_PARENT_VASP) as [Hparent|_].
  - injection Hrun as <- <-. split; [exact Hparent|]. exists addr, w. exact Hget.
  - destruct (String.eqb (role_type found) ACCOUNT_ROLE_CHILD_VASP); [|discriminate].
    eapply IH. exact Hrun.
Qed.

(** X19: the walk up the parents has no bound of its own: on a set of
    addresses that all belong to child accounts whose parent is again in the
    set (a child that names itself, or a cycle), at no depth has
    [get_parent_vasp_account] returned an account or raised an error of its
    own or of a lookup; the walk is still going, and only the interpreter's
    limit on the depth of recursion, which is outside this model, ends
    it. *)
Theorem get_parent_vasp_account_cycle (in_cycle : string -> Prop) :
  ACCOUNT_ROLE_CHILD_VASP <> ACCOUNT_ROLE_PARENT_VASP ->
  (forall a w, in_cycle a ->
     exists account w', get_account a w = (Return (Some account), w') /\
                        role_type account = ACCOUNT_ROLE_CHILD_VASP /\
                        in_cycle (parent_vasp_address account)) ->
  forall fuel a w, in_cycle a ->
    get_parent_vasp_account get_account ACCOUNT_ROLE_PARENT_VASP ACCOUNT_ROLE_CHILD_VASP
      fuel a w = None.
Proof.
  intros Hroles Hcycle fuel. induction fuel as [|fuel IH]; intros a w Ha; [reflexivity|].
  simpl. unfold must_get_account.
  destruct (Hcycle a w Ha) as (account & w' & Hget & Hrole & Hnext). rewrite Hget, Hrole.
  destruct (String.eqb_spec ACCOUNT_ROLE_CHILD_VASP ACCOUNT_ROLE_PARENT_VASP); [contradiction|].
  rewrite String.eqb_refl. apply IH. exact Hnext.
Qed.

(** X20: a base URL and key that [get_base_url_and_compliance_key] returns
    come from one account, the last one looked up, in which both the base
    URL and the compliance key are set; the key is the decoded compliance
    key of that account. *)
Theorem get_base_url_and_compliance_key_source (fuel : nat) :
  forall (account_address : string) (w w' : W) (url : string) (key : PublicKey),
  get_base_url_and_compliance_key get_account public_key_from_hex fuel account_address w
  = Some (Ok (url, key), w') ->
  exists account a1 w1,
    get_account a1 w1 = (Return (Some account), w') /\
    base_url account = url /\ url <> "" /\ compliance_key account <> "" /\
    public_key_from_hex (compliance_key account) = Some key.
Proof.
  induction fuel as [|fuel IH]; intros addr w w' url key Hrun; simpl in Hrun; [discriminate|].
  unfold must_get_account in Hrun.
  destruct (get_account addr w) as [[[found|]|e] w1] eqn:Hget; try discriminate.
  destruct (String.eqb_spec (compliance_key found) "") as [Hck|Hck]; simpl in Hrun.
  - destruct (negb (String.eqb (parent_vasp_address found) "")); [|discriminate].
    eapply IH. exact Hrun.
  - destruct (String.eqb_spec (base_url found) "") as [Hb|Hb]; simpl in Hrun.
    + destruct (negb (String.eqb (parent_vasp_address found) "")); [|discriminate].
      eapply IH. exact Hrun.
    + destruct (public_key_from_hex (compliance_key found)) as [k|] eqn:Hkey; [|discriminate].
      injection Hrun as <- <- <-. exists found, addr, w. repeat split; assumption.
Qed.
End AccountProperties.

Lemma get_parent_vasp_account_is_parent_witness :
  role_type (mkAccount 5 "parent_vasp" "" "20" "https://vasp.example" "") = "parent_vasp" /\
  exists a1 w1,
    sample_get_account a1 w1
    = (Return (Some (mkAccount 5 "parent_vasp" "" "20" "https://vasp.example" "")), 2%nat).
Proof.
  apply (get_parent_vasp_account_is_parent sample_get_account "parent_vasp" "child_vasp"
           5 "bb" 0%nat 2%nat).
  reflexivity.
Defined.

Lemma get_parent_vasp_account_cycle_witness :
  get_parent_vasp_account sample_get_account "parent_vasp" "child_vasp" 1000 "cc" 0%nat = None.
Proof.
  apply (get_parent_vasp_account_cycle sample_get_account "parent_vasp" "child_vasp"
           (fun a => a = "cc")).
  - discriminate.
  - intros a w ->. eexists _, _. split; [reflexivity|]. split; reflexivity.
  - reflexivity.
Defined.

Lemma get_base_url_and_compliance_key_source_witness :
  exists account a1 w1,
    sample_get_account a1 w1 = (Return (Some account), 2%nat) /\
    base_url account = "https://vasp.example" /\ "https://vasp.example" <> "" /\
    compliance_key account <> "" /\
    (fun hex : string => if String.eqb hex "20" then Some 32%nat else None)
      (compliance_key account) = Some 32%nat.
Proof.
  apply (get_base_url_and_compliance_key_source sample_get_account
           (fun hex : string => if String.eqb hex "20" then Some 32%nat else None)
           5 "bb" 0%nat 2%nat "https://vasp.example" 32%nat).
  reflexivity.
Defined.

(** ** The VASP domain map *)

Lemma apply_event_lookup (m m1 : gmap string string) (ev : EventData) (d : string) :
  apply_event m ev = Ok m1 ->
  m1 !! d = if String.eqb (data_domain ev) d
            then (if data_removed ev then None else Some (data_address ev))
            else m !! d.
Proof.
  unfold apply_event. intros Hev.
  destruct (data_removed ev).
  - destruct (m !! data_domain ev); [|discriminate]. injection Hev as <-.
    destruct (String.eqb_spec (data_domain ev) d) as [->|Hne].
    + apply lookup_delete_eq.
    + apply lookup_delete_ne. exact Hne.
  - injection Hev as <-.
    destruct (String.eqb_spec (data_domain ev) d) as [->|Hne].
    + apply lookup_insert_eq.
    + apply lookup_insert_ne. exact Hne.
Qed.

Lemma apply_events_app (pre post : list EventData) : forall m,
  apply_events m (pre ++ post)
  = match apply_events m pre with
    | Ok m1 => apply_events m1 post
    | Fail e => Fail e
    end.
Proof.
  induction pre as [|ev pre IH]; intros m; simpl; [reflexivity|].
  destruct (apply_event m ev); [apply IH|reflexivity].
Qed.

(** X21: when the replay of a run of events succeeds, the map it leaves
    holds for every domain what the last event naming that domain wrote: its
    address after an addition, nothing after a removal, and the earlier
    entry when no event names the domain. *)
Theorem apply_events_last_write (events : list EventData) :
  forall (m m' : gmap string string), apply_events m events = Ok m' ->
  forall d, m' !! d = last_write d events (m !! d).
Proof.
  induction events as [|ev events IH]; intros m m' Hrun d; simpl in *.
  - injection Hrun as <-. reflexivity.
  - destruct (apply_event m ev) as [m1|e] eqn:Hev; [|discriminate].
    rewrite (IH m1 m' Hrun d). f_equal. apply apply_event_lookup. exact Hev.
Qed.

Lemma apply_events_last_write_witness :
  ({[ "bob" := "b2"; "carol" := "c1" ]} : gmap string string) !! "bob"
  = last_write "bob" sample_events ((∅ : gmap string string) !! "bob").
Proof.
  apply (apply_events_last_write sample_events ∅ {[ "bob" := "b2"; "carol" := "c1" ]}).
  vm_compute. reflexivity.
Defined.

(** X22: the removal of a domain that is not in the map at that point of
    the replay, never added or removed before, makes the replay fail with
    [KeyError] for that domain, whatever events follow. *)
Theorem apply_events_remove_unknown (pre post : list EventData) (m m1 : gmap string string)
    (d a : string) :
  apply_events m pre = Ok m1 ->
  m1 !! d = None ->
  apply_events m (pre ++ mkEventData true d a :: post) = Fail (KeyError d).
Proof.
  intros Hpre Hnone. rewrite apply_events_app, Hpre. simpl.
  unfold apply_event. simpl. rewrite Hnone. reflexivity.
Qed.

Lemma apply_events_remove_unknown_witness :
  apply_events ∅ ([mkEventData false "alice" "a1"; mkEventData true "alice" ""]
                  ++ mkEventData true "alice" "" :: [mkEventData false "bob" "b1"])
  = Fail (KeyError "alice").
Proof.
  apply (apply_events_remove_unknown
           [mkEventData false "alice" "a1"; mkEventData true "alice" ""]
           [mkEventData false "bob" "b1"] ∅ ∅ "alice" "").
  - vm_compute. reflexivity.
  - reflexivity.
Defined.

Section DomainMapProperties.
Context {W : Type}.
Variable get_account : string -> W -> result (option Account) * W.
Variable get_events : string -> Z -> Z -> W -> result (list EventData) * W.
Variable TREASURY_ADDRESS : string.

Lemma domain_map_loop_pages (all : list EventData) (key : string) (batch_size : Z) :
  0 < batch_size ->
  (forall start w, 0 <= start ->
     fst (get_events key start batch_size w)
     = Return (take (Z.to_nat batch_size) (drop (Z.to_nat start) all))) ->
  forall (fuel idx : nat) (m : gmap string string) (w : W),
    (length all - idx < fuel)%nat ->
    exists w', domain_map_loop get_events fuel key batch_size (Z.of_nat idx) m w
               = Some (apply_events m (drop idx all), w').
Proof.
  intros Hbatch Hserver fuel.
  induction fuel as [|fuel IH]; intros idx m w Hfuel; [lia|]. simpl.
  pose proof (Hserver (Z.of_nat idx) w ltac:(lia)) as Hpage. rewrite Nat2Z.id in Hpage.
  destruct (get_events key (Z.of_nat idx) batch_size w) as [r w1]. simpl in Hpage. subst r.
  set (bn := Z.to_nat batch_size) in *.
  assert (Hsplit : drop idx all = take bn (drop idx all) ++ drop (idx + bn) all).
  { rewrite <- drop_drop. symmetry. apply take_drop. }
  assert (Hreplay : apply_events m (drop idx all)
                    = match apply_events m (take bn (drop idx all)) with
                      | Ok m1 => apply_events m1 (drop (idx + bn) all)
                      | Fail e => Fail e
                      end).
  { rewrite <- apply_events_app, <- Hsplit. reflexivity. }
  rewrite Hreplay. clear Hreplay Hsplit.
  destruct (apply_events m (take bn (drop idx all))) as [m1|e]; [|eauto].
  rewrite length_take, length_drop.
  destruct (Z.ltb_spec (Z.of_nat (bn `min` (length all - idx))) batch_size) as [Hshort|Hfull].
  - rewrite (drop_ge all (idx + bn)) by lia. simpl. eauto.
  - replace (Z.of_nat idx + batch_size) with (Z.of_nat (idx + bn)) by lia.
    apply IH. lia.
Qed.

(** X23: paging is transparent: against a server that answers each
    [get_events(key, start, limit)] with the events [start .. start + limit]
    of one stream, [get_vasp_domain_map] with a positive [batch_size] ends
    and gives what the replay of the whole stream gives, the map or the
    [KeyError]. *)
Theorem get_vasp_domain_map_pages (all : list EventData) (batch_size : Z) (fuel : nat)
    (w w0 : W) (tc_account : Account) :
  0 < batch_size ->
  must_get_account get_account TREASURY_ADDRESS w = (Ok tc_account, w0) ->
  (forall start w1, 0 <= start ->
     fst (get_events (vasp_domain_events_key tc_account) start batch_size w1)
     = Return (take (Z.to_nat batch_size) (drop (Z.to_nat start) all))) ->
  (length all < fuel)%nat ->
  exists w',
    get_vasp_domain_map get_account get_events TREASURY_ADDRESS fuel batch_size w
    = Some (apply_events ∅ all, w').
Proof.
  intros Hbatch Htc Hserver Hfuel. unfold get_vasp_domain_map. rewrite Htc.
  destruct (domain_map_loop_pages all (vasp_domain_events_key tc_account) batch_size
              Hbatch Hserver fuel 0%nat ∅ w0) as [w' Hloop]; [lia|].
  exists w'. exact Hloop.
Qed.

Lemma domain_map_loop_never_returns (key : string) (batch_size : Z) (fuel : nat) :
  batch_size <= 0 ->
  forall (idx : Z) (m m' : gmap string string) (w w' : W),
    domain_map_loop get_events fuel key batch_size idx m w <> Some (Ok m', w').
Proof.
  intros Hbatch. induction fuel as [|fuel IH]; intros idx m m' w w'; simpl; [discriminate|].
  destruct (get_events key idx batch_size w) as [[events|e] w1]; [|discriminate].
  destruct (apply_events m events) as [m1|e]; [|discriminate].
  destruct (Z.ltb_spec (Z.of_nat (length events)) batch_size); [lia|]. apply IH.
Qed.

(** X24: with a [batch_size] of zero or less no batch is ever shorter than
    the batch size, so [get_vasp_domain_map] never returns a map: it ends
    only by an exception, and otherwise asks for events without end. *)
Theorem get_vasp_domain_map_batch_size_not_positive (batch_size : Z) (fuel : nat)
    (w w' : W) (m' : gmap string string) :
  batch_size <= 0 ->
  get_vasp_domain_map get_account get_events TREASURY_ADDRESS fuel batch_size w
  <> Some (Ok m', w').
Proof.
  intros Hbatch. unfold get_vasp_domain_map.
  destruct (must_get_account get_account TREASURY_ADDRESS w) as [[tc|e] w0]; [|discriminate].
  apply domain_map_loop_never_returns. exact Hbatch.
Qed.
End DomainMapProperties.

Lemma get_vasp_domain_map_pages_witness :
  exists w',
    get_vasp_domain_map sample_get_account (sample_get_events sample_events) "tc" 6 2 0%nat
    = Some (apply_events ∅ sample_events, w').
Proof.
  apply (get_vasp_domain_map_pages sample_get_account (sample_get_events sample_events) "tc"
           sample_events 2 6 0%nat 1%nat
           (mkAccount 0 "treasury_compliance" "" "" "" "events")).
  - lia.
  - reflexivity.
  - intros start w1 Hstart. reflexivity.
  - simpl. lia.
Defined.

Example get_vasp_domain_map_sample :
  get_vasp_domain_map sample_get_account (sample_get_events sample_events) "tc" 6 2 0%nat
  = Some (Ok {[ "bob" := "b2"; "carol" := "c1" ]}, 4%nat).
Proof. vm_compute. reflexivity. Qed.

Lemma get_vasp_domain_map_batch_size_not_positive_witness :
  get_vasp_domain_map sample_get_account (sample_get_events sample_events) "tc" 50 0 0%nat
  <> Some (Ok ∅, 50%nat).
Proof.
  apply (get_vasp_domain_map_batch_size_not_positive sample_get_account
           (sample_get_events sample_events) "tc" 0 50 0%nat 50%nat ∅).
  lia.
Defined.

(** ** The transaction-wait loop, further *)

Section WaitFurther.
Context {T : Type} `{PyFloat T} {W Address : Type}.
Variable time_time : W -> T * W.
Variable time_sleep : T -> W -> W.
Variable tracker : W -> State.
Variable get_account_transaction :
  Address -> Z -> bool -> W -> result (option Transaction) * W.
Variable VM_STATUS_EXECUTED : string.
Variable DEFAULT_WAIT_FOR_TRANSACTION_TIMEOUT_SECS : T.
Variable DEFAULT_WAIT_FOR_TRANSACTION_WAIT_DURATION_SECS : T.

Abbreviation loop' := (wait_loop time_time time_sleep tracker get_account_transaction
                         VM_STATUS_EXECUTED DEFAULT_WAIT_FOR_TRANSACTION_WAIT_DURATION_SECS).
Abbreviation wait' := (wait_for_transaction2 time_time time_sleep tracker get_account_transaction
                         VM_STATUS_EXECUTED DEFAULT_WAIT_FOR_TRANSACTION_TIMEOUT_SECS
                         DEFAULT_WAIT_FOR_TRANSACTION_WAIT_DURATION_SECS).
Abbreviation now_at' := (round_now time_time time_sleep get_account_transaction
                           DEFAULT_WAIT_FOR_TRANSACTION_WAIT_DURATION_SECS).
Abbreviation state_at' := (round_state time_time time_sleep tracker get_account_transaction
                             DEFAULT_WAIT_FOR_TRANSACTION_WAIT_DURATION_SECS).
Abbreviation lookup_at' := (round_lookup time_time time_sleep get_account_transaction
                              DEFAULT_WAIT_FOR_TRANSACTION_WAIT_DURATION_SECS).
Abbreviation world_at' := (after_rounds time_time time_sleep get_account_transaction
                             DEFAULT_WAIT_FOR_TRANSACTION_WAIT_DURATION_SECS).

Variables (address : Address) (seq : Z) (expiration_time_secs : Z) (txn_hash : string).

Abbreviation goes_by' := (goes_by time_time time_sleep tracker get_account_transaction
                            DEFAULT_WAIT_FOR_TRANSACTION_WAIT_DURATION_SECS
                            address seq expiration_time_secs).

Lemma wait_loop_skip (wait_duration_secs : option T) (start_time max_wait : T) (n : nat) :
  forall (fuel : nat) (w : W),
  (forall i, (i < n)%nat -> goes_by' wait_duration_secs max_wait w i) ->
  loop' address seq expiration_time_secs txn_hash wait_duration_secs start_time max_wait
    (n + fuel) w
  = loop' address seq expiration_time_secs txn_hash wait_duration_secs start_time max_wait
      fuel (world_at' address seq wait_duration_secs n w).
Proof.
  induction n as [|n IH]; intros fuel w Hby; [reflexivity|].
  destruct (Hby 0%nat ltac:(lia)) as (Hnow & Hlook & ts & Hts & Hlt).
  cbn [after_rounds]. rewrite <- IH.
  - unfold round_now, round_state, round_lookup, poll_round in *. simpl in *.
    destruct (time_time w) as [now w1]. simpl in *. rewrite Hnow.
    destruct (get_account_transaction address seq true w1) as [r w2]. simpl in *. subst r.
    rewrite Hts. simpl.
    destruct (Z.leb_spec (expiration_time_secs * 1000000) ts); [lia|reflexivity].
  - intros i Hi. apply (Hby (Datatypes.S i)). lia.
Qed.

(** X25: the first round whose lookup does not come back empty decides,
    whatever the ledger timestamp is by then: a found transaction gives
    [TransactionHashMismatchError] when its hash is not the expected one,
    else [TransactionExecutionFailed] when its status is not the executed
    one, else it is returned; an exception of the lookup passes through. *)
Theorem wait_for_transaction2_found (timeout_secs wait_duration_secs : option T)
    (n fuel : nat) (w : W) :
  let max_wait :=
    fadd (fst (time_time w)) (py_or timeout_secs DEFAULT_WAIT_FOR_TRANSACTION_TIMEOUT_SECS) in
  let w0 := snd (time_time w) in
  (forall i, (i < n)%nat -> goes_by' wait_duration_secs max_wait w0 i) ->
  flt (now_at' address seq wait_duration_secs n w0) max_wait = true ->
  (n < fuel)%nat ->
  (forall txn, fst (lookup_at' address seq wait_duration_secs n w0) = Return (Some txn) ->
     wait' address seq expiration_time_secs txn_hash timeout_secs wait_duration_secs fuel w
     = Some (if negb (String.eqb (hash txn) txn_hash)
             then Failed (TransactionHashMismatchError txn txn_hash)
             else if negb (String.eqb (vm_status_type txn) VM_STATUS_EXECUTED)
                  then Failed (TransactionExecutionFailed txn)
                  else Found txn,
             snd (lookup_at' address seq wait_duration_secs n w0))) /\
  (forall e, fst (lookup_at' address seq wait_duration_secs n w0) = Raise e ->
     wait' address seq expiration_time_secs txn_hash timeout_secs wait_duration_secs fuel w
     = Some (Failed (Propagated e), snd (lookup_at' address seq wait_duration_secs n w0))).
Proof.
  intros max_wait w0 Hby Hnow Hfuel. subst max_wait w0.
  unfold wait_for_transaction2. destruct (time_time w) as [start_time w0]. simpl in *.
  replace fuel with (n + Datatypes.S (fuel - Datatypes.S n))%nat by lia.
  rewrite (wait_loop_skip _ _ _ _ _ _ Hby).
  unfold round_now, round_lookup in *. simpl.
  destruct (time_time (world_at' address seq wait_duration_secs n w0)) as [now w1].
  simpl in *. rewrite Hnow.
  destruct (get_account_transaction address seq true w1) as [r w2]. simpl.
  split.
  - intros txn ->. destruct (negb _); [reflexivity|]. destruct (negb _); reflexivity.
  - intros e ->. reflexivity.
Qed.

(** X26: when rounds go by until one starts with the clock no longer before
    [start_time + timeout], the wait fails in that round with
    [WaitForTransactionTimeout], carrying the start time and a later
    reading of the clock, without another lookup. *)
Theorem wait_for_transaction2_timeout (timeout_secs wait_duration_secs : option T)
    (n fuel : nat) (w : W) :
  let max_wait :=
    fadd (fst (time_time w)) (py_or timeout_secs DEFAULT_WAIT_FOR_TRANSACTION_TIMEOUT_SECS) in
  let w0 := snd (time_time w) in
  let w1 := snd (time_time (world_at' address seq wait_duration_secs n w0)) in
  (forall i, (i < n)%nat -> goes_by' wait_duration_secs max_wait w0 i) ->
  flt (now_at' address seq wait_duration_secs n w0) max_wait = false ->
  (n < fuel)%nat ->
  wait' address seq expiration_time_secs txn_hash timeout_secs wait_duration_secs fuel w
  = Some (Failed (WaitForTransactionTimeout (fst (time_time w)) (fst (time_time w1))),
          snd (time_time w1)).
Proof.
  intros max_wait w0 w1 Hby Hnow Hfuel. subst max_wait w0 w1.
  unfold wait_for_transaction2. destruct (time_time w) as [start_time w0]. simpl in *.
  replace fuel with (n + Datatypes.S (fuel - Datatypes.S n))%nat by lia.
  rewrite (wait_loop_skip _ _ _ _ _ _ Hby).
  unfold round_now in *. simpl.
  destruct (time_time (world_at' address seq wait_duration_secs n w0)) as [now w1].
  simpl in *. rewrite Hnow. destruct (time_time w1) as [end_time w2]. reflexivity.
Qed.
End WaitFurther.

Lemma wait_for_transaction2_found_witness :
  wait_for_transaction2 tick_time tick_sleep tick_tracker
    (tick_lookup_from 1 (mkTransaction "h" "executed")) "executed" 30%Q (1 # 5)
    "a" 7 9 "h" (Some 10%Q) None 3 0%nat
  = Some (Found (mkTransaction "h" "executed"), 1%nat).
Proof.
  refine (proj1 (wait_for_transaction2_found tick_time tick_sleep tick_tracker
                   (tick_lookup_from 1 (mkTransaction "h" "executed")) "executed" 30%Q (1 # 5)
                   "a" 7 9 "h" (Some 10%Q) None 1 3 0%nat _ _ _)
            (mkTransaction "h" "executed") _).
  - intros i Hi. destruct i as [|i]; [|lia].
    split; [reflexivity|]. split; [reflexivity|]. exists 0. split; [reflexivity|lia].
  - reflexivity.
  - lia.
  - reflexivity.
Defined.

Lemma wait_for_transaction2_timeout_witness :
  wait_for_transaction2 tick_time tick_sleep tick_tracker tick_lookup "executed" 30%Q (1 # 5)
    "a" 7 9 "h" (Some 2%Q) None 5 0%nat
  = Some (Failed (WaitForTransactionTimeout (inject_Z 0) (inject_Z 2)), 2%nat).
Proof.
  refine (wait_for_transaction2_timeout tick_time tick_sleep tick_tracker tick_lookup
            "executed" 30%Q (1 # 5) "a" 7 9 "h" (Some 2%Q) None 2 5 0%nat _ _ _).
  - intros i Hi. destruct i as [|[|i]]; [| |lia].
    + split; [reflexivity|]. split; [reflexivity|]. exists 0. split; [reflexivity|lia].
    + split; [reflexivity|]. split; [reflexivity|]. exists 1000000. split; [reflexivity|lia].
  - reflexivity.
  - lia.
Defined.

(** ** Zero for the timeout or the poll interval *)

Section WaitZero.
Context {T : Type} `{PyFloat T} {W Address : Type}.
Variable time_time : W -> T * W.
Variable time_sleep : T -> W -> W.
Variable tracker : W -> State.
Variable get_account_transaction :
  Address -> Z -> bool -> W -> result (option Transaction) * W.
Variable VM_STATUS_EXECUTED : string.
Variable DEFAULT_WAIT_FOR_TRANSACTION_TIMEOUT_SECS : T.
Variable DEFAULT_WAIT_FOR_TRANSACTION_WAIT_DURATION_SECS : T.

Abbreviation loop0 := (wait_loop time_time time_sleep tracker get_account_transaction
                         VM_STATUS_EXECUTED DEFAULT_WAIT_FOR_TRANSACTION_WAIT_DURATION_SECS).
Abbreviation wait0 := (wait_for_transaction2 time_time time_sleep tracker get_account_transaction
                         VM_STATUS_EXECUTED DEFAULT_WAIT_FOR_TRANSACTION_TIMEOUT_SECS
                         DEFAULT_WAIT_FOR_TRANSACTION_WAIT_DURATION_SECS).
Abbreviation now_at0 := (round_now time_time time_sleep get_account_transaction
                           DEFAULT_WAIT_FOR_TRANSACTION_WAIT_DURATION_SECS).
Abbreviation lookup_at0 := (round_lookup time_time time_sleep get_account_transaction
                              DEFAULT_WAIT_FOR_TRANSACTION_WAIT_DURATION_SECS).
Abbreviation world_at0 := (after_rounds time_time time_sleep get_account_transaction
                             DEFAULT_WAIT_FOR_TRANSACTION_WAIT_DURATION_SECS).

Variables (address : Address) (seq : Z) (expiration_time_secs : Z) (txn_hash : string).

Abbreviation goes_by0 := (goes_by time_time time_sleep tracker get_account_transaction
                            DEFAULT_WAIT_FOR_TRANSACTION_WAIT_DURATION_SECS
                            address seq expiration_time_secs).

(** C10: a [timeout_secs] (or [wait_duration_secs]) that is zero, a false
    value, is replaced by the default of the constants module.  The call
    runs exactly as the call without that argument does.  It does not time
    out at once: its window ends at [start_time] plus the default timeout,
    so that a transaction the lookup returns in a round that starts within
    that window, after rounds that went by, decides the wait.  And it does
    not sleep for no time: a round that goes by ends with a sleep of the
    default poll interval. *)
Theorem wait_for_transaction2_zero_is_default (zero : T)
    (timeout_secs wait_duration_secs : option T) (n fuel : nat) (w : W) :
  ftruthy zero = false ->
  let max_wait := fadd (fst (time_time w)) DEFAULT_WAIT_FOR_TRANSACTION_TIMEOUT_SECS in
  let w0 := snd (time_time w) in
  wait0 address seq expiration_time_secs txn_hash (Some zero) wait_duration_secs fuel w
  = wait0 address seq expiration_time_secs txn_hash None wait_duration_secs fuel w /\
  wait0 address seq expiration_time_secs txn_hash timeout_secs (Some zero) fuel w
  = wait0 address seq expiration_time_secs txn_hash timeout_secs None fuel w /\
  py_or (Some zero) DEFAULT_WAIT_FOR_TRANSACTION_TIMEOUT_SECS
  = DEFAULT_WAIT_FOR_TRANSACTION_TIMEOUT_SECS /\
  py_or (Some zero) DEFAULT_WAIT_FOR_TRANSACTION_WAIT_DURATION_SECS
  = DEFAULT_WAIT_FOR_TRANSACTION_WAIT_DURATION_SECS /\
  (forall w1,
     poll_round time_time time_sleep get_account_transaction
       DEFAULT_WAIT_FOR_TRANSACTION_WAIT_DURATION_SECS address seq (Some zero) w1
     = time_sleep DEFAULT_WAIT_FOR_TRANSACTION_WAIT_DURATION_SECS
         (snd (get_account_transaction address seq true (snd (time_time w1))))) /\
  ((forall i, (i < n)%nat -> goes_by0 (Some zero) max_wait w0 i) ->
   flt (now_at0 address seq (Some zero) n w0) max_wait = true ->
   (n < fuel)%nat ->
   forall txn, fst (lookup_at0 address seq (Some zero) n w0) = Return (Some txn) ->
     wait0 address seq expiration_time_secs txn_hash (Some zero) (Some zero) fuel w
     = Some (if negb (String.eqb (hash txn) txn_hash)
             then Failed (TransactionHashMismatchError txn txn_hash)
             else if negb (String.eqb (vm_status_type txn) VM_STATUS_EXECUTED)
                  then Failed (TransactionExecutionFailed txn)
                  else Found txn,
             snd (lookup_at0 address seq (Some zero) n w0))).
Proof.
  intros Hz max_wait w0.
  destruct (wait_zero_runs_as_default time_time time_sleep tracker get_account_transaction
              VM_STATUS_EXECUTED DEFAULT_WAIT_FOR_TRANSACTION_TIMEOUT_SECS
              DEFAULT_WAIT_FOR_TRANSACTION_WAIT_DURATION_SECS address seq expiration_time_secs
              txn_hash zero timeout_secs wait_duration_secs fuel w Hz)
    as (Ht & Hd & Hpt & Hpd).
  split; [exact Ht|]. split; [exact Hd|]. split; [exact Hpt|]. split; [exact Hpd|].
  split.
  - intros w1. unfold poll_round. rewrite Hpd. reflexivity.
  - intros Hby Hnow Hfuel txn Hlook. subst max_wait w0.
    unfold wait_for_transaction2. rewrite Hpt.
    destruct (time_time w) as [start_time w0]. simpl in *.
    replace fuel with (n + Datatypes.S (fuel - Datatypes.S n))%nat by lia.
    rewrite (wait_loop_skip _ _ _ _ _ _ _ _ _ _ _ _ _ _ _ _ Hby).
    unfold round_now, round_lookup in *. simpl.
    destruct (time_time (world_at0 address seq (Some zero) n w0)) as [now w1].
    simpl in *. rewrite Hnow.
    destruct (get_account_transaction address seq true w1) as [r w2]. simpl in *. subst r.
    destruct (negb _); [reflexivity|]. destruct (negb _); reflexivity.
Qed.
End WaitZero.

Lemma wait_for_transaction2_zero_is_default_witness :
  wait_for_transaction2 tick_time tick_sleep tick_tracker
    (tick_lookup_from 1 (mkTransaction "h" "executed")) "executed" 30%Q (1 # 5)
    "a" 7 9 "h" (Some 0%Q) (Some 0%Q) 3 0%nat
  = Some (Found (mkTransaction "h" "executed"), 1%nat).
Proof.
  refine (proj2 (proj2 (proj2 (proj2 (proj2
            (wait_for_transaction2_zero_is_default tick_time tick_sleep tick_tracker
               (tick_lookup_from 1 (mkTransaction "h" "executed")) "executed" 30%Q (1 # 5)
               "a" 7 9 "h" 0%Q None None 1 3 0%nat _)))))
            _ _ _ (mkTransaction "h" "executed") _).
  - reflexivity.
  - intros i Hi. destruct i as [|i]; [|lia].
    split; [reflexivity|]. split; [reflexivity|]. exists 0. split; [reflexivity|lia].
  - reflexivity.
  - lia.
  - reflexivity.
Defined.
